(** * python-module-to-anki: a shallow embedding and its properties

    The program fetches the documentation page of each Python module named
    on the command line, extracts the one-line synopsis from the page's first
    [h1] heading, submits it as a note to AnkiConnect and finally asks Anki
    to browse the notes it created.

    Python values are embedded as an inductive type, Python exceptions as a
    [result] type, and the program's input and output (HTTP requests, the
    configuration file, the console) as a trace of events threaded through
    a state-and-exception monad; the answers of the outside world are taken
    from an [Environment] that may depend on everything that happened
    before. *)

From Stdlib Require Import List String Ascii ZArith Lia Bool Permutation.
From Stdlib Require Import DecimalString DecimalPos DecimalZ.
Import ListNotations.
Local Open Scope list_scope.
Local Open Scope string_scope.
Set Warnings "-register-all".

(** ** Python values *)

(** A [str] is embedded as the Rocq [string] of its UTF-8 encoding (see
    [code_points] below for its characters).  A [float] is carried by its
    [repr]: the program never computes with one, it only prints it or sends
    it on.  A [dict] with string keys is an association list in insertion
    order. *)
Inductive pyvalue : Type :=
| PyNone
| PyBool (b : bool)
| PyInt (n : Z)
| PyFloat (repr : string)
| PyStr (s : string)
| PyList (items : list pyvalue)
| PyDict (entries : list (string * pyvalue)).

(** A raised exception: the name of its class and its single argument. *)
Inductive exn : Type :=
| PyExc (class_name : string) (arg : pyvalue).

Inductive result (A : Type) : Type :=
| Ok (a : A)
| Raise (e : exn).
Arguments Ok {A} a.
Arguments Raise {A} e.

Definition Exception (message : string) : exn :=
  PyExc "Exception" (PyStr message).

Definition raises {A : Type} (r : result A) : Prop :=
  exists e, r = Raise e.

(** ** The characters of a [str] *)

(** A character of a [str] is a code point.  In the UTF-8 encoding a code
    point is one byte that is not a continuation byte, followed by its
    continuation bytes, those from 128 to 191. *)
Definition is_continuation (c : ascii) : bool :=
  Nat.leb 128 (nat_of_ascii c) && Nat.ltb (nat_of_ascii c) 192.

(** The code points of a [str], each as the bytes that encode it. *)
Fixpoint code_points (s : string) : list string :=
  match s with
  | EmptyString => []
  | String c rest =>
      let units := code_points rest in
      match rest with
      | EmptyString => [String c EmptyString]
      | String d _ =>
          if is_continuation d
          then match units with
               | [] => [String c EmptyString]
               | unit :: units' => String c unit :: units'
               end
          else String c EmptyString :: units
      end
  end.

(** [len(s)] for a [str]. *)
Definition str_len (s : string) : nat := List.length (code_points s).

(** [s] without the continuation bytes it begins with. *)
Fixpoint skip_continuation (s : string) : string :=
  match s with
  | EmptyString => EmptyString
  | String c rest => if is_continuation c then skip_continuation rest else s
  end.

(** ** Sequences: slicing and joining *)

(** [sep.join(parts)] *)
Fixpoint join (sep : string) (parts : list string) : string :=
  match parts with
  | [] => ""
  | [p] => p
  | p :: rest => p ++ sep ++ join sep rest
  end.

Module Slice.

(** Clamp a slice bound as CPython's [PySlice_AdjustIndices] does for a
    step of 1: a negative bound counts from the end, and the bound is
    then brought into [0 .. len]. *)
Definition adjust (len : Z) (bound : Z) : Z :=
  if (bound <? 0)%Z
  then (if (bound + len <? 0)%Z then 0%Z else (bound + len)%Z)
  else (if (len <? bound)%Z then len else bound).

(** [l[start:stop]]; an omitted bound is [None]. *)
Definition slice {A : Type} (start stop : option Z) (l : list A) : list A :=
  let len := Z.of_nat (List.length l) in
  let lo := match start with Some i => adjust len i | None => 0%Z end in
  let hi := match stop with Some j => adjust len j | None => len end in
  firstn (Z.to_nat (hi - lo)) (skipn (Z.to_nat lo) l).

(** The same on a [str], whose items are its code points. *)
Definition str_slice (start stop : option Z) (s : string) : string :=
  join "" (slice start stop (code_points s)).

End Slice.

(** The words of the specification: a sequence without its first and its
    last element, and a string without its first [n] characters. *)
Definition without_first_and_last {A : Type} (l : list A) : list A :=
  removelast (tl l).

Fixpoint drop_chars (n : nat) (s : string) : string :=
  match n, s with
  | O, _ => s
  | S _, EmptyString => EmptyString
  | S n', String _ s' => drop_chars n' (skip_continuation s')
  end.

(** ** The parsed document *)

(** A node of the tree that [bs4] builds: an element ([bs4.Tag]) with its
    attributes and [contents], or a piece of text ([bs4.NavigableString]). *)
Inductive page_element : Type :=
| Tag (name : string) (attrs : list (string * string))
      (contents : list page_element)
| NavigableString (text : string).

(** A [BeautifulSoup] object is the sequence of top-level nodes. *)
Definition soup : Type := list page_element.

(** [soup.find(name)]: the first element called [name], in document order
    (an element comes before its descendants, and these before its next
    sibling). *)
Fixpoint find_in (name : string) (e : page_element) : option page_element :=
  match e with
  | Tag n _ contents =>
      if String.eqb n name then Some e
      else (fix find_list (l : list page_element) : option page_element :=
              match l with
              | [] => None
              | c :: rest =>
                  match find_in name c with
                  | Some hit => Some hit
                  | None => find_list rest
                  end
              end) contents
  | NavigableString _ => None
  end.

Fixpoint find (name : string) (doc : soup) : option page_element :=
  match doc with
  | [] => None
  | e :: rest =>
      match find_in name e with
      | Some hit => Some hit
      | None => find name rest
      end
  end.

Section Extractor.

(** [str(tag)] renders an element back into markup; this is [bs4]'s
    [Tag.decode], which is not part of the program. *)
Variable decode : page_element -> string.

(** [str(node)]: markup for an element, the text itself for a string. *)
Definition element_str (e : page_element) : string :=
  match e with
  | Tag _ _ _ => decode e
  | NavigableString text => text
  end.

(** [get_synopsis(soup)] *)
Definition get_synopsis (doc : soup) : result string :=
  match find "h1" doc with
  | Some (Tag _ _ contents) =>
      Ok (Slice.str_slice (Some 3%Z) None
            (join "" (map element_str
                        (Slice.slice (Some 1%Z) (Some (-1)%Z) contents))))
  | _ => Raise (Exception "h1 should be an instance of bs4.Tag")
  end.

End Extractor.

(** ** Rendering values *)

(** [str(n)] for an [int]. *)
Definition str_of_Z (n : Z) : string :=
  NilZero.string_of_int (Z.to_int n).

Definition dquote : string := String "034"%char EmptyString.

Module Json.

Definition hex_digit (n : nat) : string :=
  String (nth n ["0"; "1"; "2"; "3"; "4"; "5"; "6"; "7"; "8"; "9";
                 "a"; "b"; "c"; "d"; "e"; "f"]%char "0"%char) EmptyString.

(** The replacement that [json.encoder.py_encode_basestring_ascii] makes
    for a code point of one byte: the short escapes of [ESCAPE_DCT], the
    printable ASCII characters unchanged, and [\u00xx] for every other
    one. *)
Definition escape_char (c : ascii) : string :=
  let n := nat_of_ascii c in
  if Ascii.eqb c "\"%char then "\\"
  else if Ascii.eqb c "034"%char then "\" ++ dquote
  else if Nat.eqb n 8 then "\b"
  else if Nat.eqb n 12 then "\f"
  else if Nat.eqb n 10 then "\n"
  else if Nat.eqb n 13 then "\r"
  else if Nat.eqb n 9 then "\t"
  else if Nat.leb 32 n && Nat.leb n 126 then String c EmptyString
  else "\u00" ++ hex_digit (Nat.div n 16) ++ hex_digit (Nat.modulo n 16).

(** The number of a code point, from the bytes that encode it. *)
Definition code_point_value (unit : string) : N :=
  let payload (c : ascii) : N := N.modulo (N_of_ascii c) 64 in
  match unit with
  | EmptyString => 0
  | String b0 EmptyString => N_of_ascii b0
  | String b0 (String b1 EmptyString) =>
      N.modulo (N_of_ascii b0) 32 * 64 + payload b1
  | String b0 (String b1 (String b2 EmptyString)) =>
      N.modulo (N_of_ascii b0) 16 * 4096 + payload b1 * 64 + payload b2
  | String b0 (String b1 (String b2 (String b3 _))) =>
      N.modulo (N_of_ascii b0) 8 * 262144 + payload b1 * 4096
      + payload b2 * 64 + payload b3
  end.

(** [\u] and four hexadecimal digits. *)
Definition escape_u (n : N) : string :=
  "\u" ++ hex_digit (N.to_nat (N.modulo (N.div n 4096) 16))
  ++ hex_digit (N.to_nat (N.modulo (N.div n 256) 16))
  ++ hex_digit (N.to_nat (N.modulo (N.div n 16) 16))
  ++ hex_digit (N.to_nat (N.modulo n 16)).

(** The replacement for one code point: that of [escape_char] for a
    code point of one byte, [\uxxxx] up to 65535, and the two surrogates
    above. *)
Definition escape_code_point (unit : string) : string :=
  match unit with
  | EmptyString => EmptyString
  | String c EmptyString => escape_char c
  | _ =>
      let n := code_point_value unit in
      if N.ltb n 65536 then escape_u n
      else escape_u (N.lor 55296 (N.land (N.shiftr (n - 65536) 10) 1023))
           ++ escape_u (N.lor 56320 (N.land (n - 65536) 1023))
  end.

Definition escape (s : string) : string :=
  join "" (map escape_code_point (code_points s)).

Definition encode_basestring (s : string) : string :=
  dquote ++ escape s ++ dquote.

(** [float.__repr__], but for the three values JSON has no literal for. *)
Definition floatstr (repr : string) : string :=
  if String.eqb repr "nan" then "NaN"
  else if String.eqb repr "inf" then "Infinity"
  else if String.eqb repr "-inf" then "-Infinity"
  else repr.

(** [json.dumps(v)] with its default arguments: [", "] between items,
    [": "] after a key, ASCII output, dictionaries in insertion order. *)
Fixpoint dumps (v : pyvalue) : string :=
  match v with
  | PyNone => "null"
  | PyBool true => "true"
  | PyBool false => "false"
  | PyInt n => str_of_Z n
  | PyFloat repr => floatstr repr
  | PyStr s => encode_basestring s
  | PyList items => "[" ++ join ", " (map dumps items) ++ "]"
  | PyDict entries =>
      "{" ++ join ", " (map (fun kv => encode_basestring (fst kv) ++ ": "
                                       ++ dumps (snd kv)) entries) ++ "}"
  end.

End Json.

(** ** Operations on values *)

Definition bind_result {A B : Type} (r : result A) (k : A -> result B)
  : result B :=
  match r with
  | Ok a => k a
  | Raise e => Raise e
  end.

Notation "'let?' x ':=' r 'in' k" :=
  (bind_result r (fun x => k))
  (at level 10, x name, r at level 100, k at level 200).

Definition TypeError (message : string) : exn :=
  PyExc "TypeError" (PyStr message).

Definition type_name (v : pyvalue) : string :=
  match v with
  | PyNone => "NoneType"
  | PyBool _ => "bool"
  | PyInt _ => "int"
  | PyFloat _ => "float"
  | PyStr _ => "str"
  | PyList _ => "list"
  | PyDict _ => "dict"
  end.

Fixpoint dict_get (key : string) (entries : list (string * pyvalue))
  : option pyvalue :=
  match entries with
  | [] => None
  | (k, v) :: rest => if String.eqb k key then Some v else dict_get key rest
  end.

(** [needle in hay] for two strings; in UTF-8 a [str] occurs in another
    as code points exactly where its bytes occur. *)
Fixpoint str_contains (needle hay : string) : bool :=
  String.prefix needle hay
  || match hay with
     | EmptyString => false
     | String _ rest => str_contains needle rest
     end.

(** [len(v)] *)
Definition py_len (v : pyvalue) : result nat :=
  match v with
  | PyStr s => Ok (str_len s)
  | PyList items => Ok (List.length items)
  | PyDict entries => Ok (List.length entries)
  | _ => Raise (TypeError ("object of type '" ++ type_name v
                           ++ "' has no len()"))
  end.

(** [key in v] for a string [key]. *)
Definition py_contains (key : string) (v : pyvalue) : result bool :=
  match v with
  | PyStr s => Ok (str_contains key s)
  | PyList items =>
      Ok (existsb (fun item => match item with
                               | PyStr s => String.eqb s key
                               | _ => false
                               end) items)
  | PyDict entries =>
      Ok (match dict_get key entries with Some _ => true | None => false end)
  | _ => Raise (TypeError ("argument of type '" ++ type_name v
                           ++ "' is not iterable"))
  end.

(** [v[key]] for a string [key]. *)
Definition py_getitem (v : pyvalue) (key : string) : result pyvalue :=
  match v with
  | PyDict entries =>
      match dict_get key entries with
      | Some item => Ok item
      | None => Raise (PyExc "KeyError" (PyStr key))
      end
  | PyStr _ => Raise (TypeError "string indices must be integers, not 'str'")
  | PyList _ =>
      Raise (TypeError "list indices must be integers or slices, not str")
  | _ => Raise (TypeError ("'" ++ type_name v
                           ++ "' object is not subscriptable"))
  end.

(** ** The AnkiConnect envelope *)

(** The dictionary [request] of [get_anki_connect_request]. *)
Definition request (action : string) (params : list (string * pyvalue))
  : pyvalue :=
  PyDict [("action", PyStr action);
          ("version", PyInt 6);
          ("params", PyDict params)].

(** [get_anki_connect_request(action, **params)] *)
Definition get_anki_connect_request
  (action : string) (params : list (string * pyvalue)) : string :=
  Json.dumps (request action params).

(** What [invoke_anki_connect] makes of the decoded body [response_table]:
    its four checks and its [return]. *)
Definition response_table_outcome (response_table : pyvalue)
  : result pyvalue :=
  let? n := py_len response_table in
  if negb (Nat.eqb n 2)
  then Raise (Exception "response has an unexpected number of fields")
  else
    let? has_error := py_contains "error" response_table in
    if negb has_error
    then Raise (Exception "response is missing required error field")
    else
      let? has_result := py_contains "result" response_table in
      if negb has_result
      then Raise (Exception "response is missing required result field")
      else
        let? error := py_getitem response_table "error" in
        match error with
        | PyNone => py_getitem response_table "result"
        | _ => Raise (PyExc "Exception" error)
        end.

(** ** The outside world *)

(** A [requests.Response], as far as the program looks at it. *)
Record response : Type := {
  status_code : Z;
  reason : string;
  url : string;
  (** [response.iter_content(chunk_size)]: the body in pieces *)
  iter_content : Z -> list string;
  text : string
}.

(** What the temporary file of [create_synopsis_note] holds once every
    chunk of the response is written to it. *)
Definition html_file (r : response) : string :=
  fold_left (fun file chunk => file ++ chunk) (iter_content r 100000) "".

(** The message that [response.raise_for_status()] of [requests] builds:
    empty unless the status is from 400 to 599. *)
Definition http_error_msg (r : response) : string :=
  if (400 <=? status_code r)%Z && (status_code r <? 500)%Z
  then str_of_Z (status_code r) ++ " Client Error: " ++ reason r
       ++ " for url: " ++ url r
  else if (500 <=? status_code r)%Z && (status_code r <? 600)%Z
  then str_of_Z (status_code r) ++ " Server Error: " ++ reason r
       ++ " for url: " ++ url r
  else "".

(** [response.raise_for_status()]: an [HTTPError] with that message when
    there is one. *)
Definition raise_for_status (r : response) : result unit :=
  match http_error_msg r with
  | EmptyString => Ok tt
  | msg => Raise (PyExc "HTTPError" (PyStr msg))
  end.

(** The status is one that [raise_for_status] raises for. *)
Definition error_status (r : response) : Prop :=
  (400 <= status_code r < 600)%Z.

(** What the program does to the outside world, in the order it does it,
    each request with the answer it got. *)
Inductive event : Type :=
| Print (line : string)
| HttpGet (target : string) (answer : result response)
| HttpPost (target : pyvalue) (data : string) (answer : result response)
| ReadConfig (answer : result pyvalue).

Definition trace : Type := list event.

(** The answers of the outside world, which may depend on all that has
    happened so far, and the library functions the program calls. *)
Record Environment : Type := {
  (** [requests.get(url)]: a response, or the exception of a failed
      transport *)
  requests_get : trace -> string -> result response;
  (** [requests.post(url, data)] *)
  requests_post : trace -> pyvalue -> string -> result response;
  (** [open("config.json")] followed by [json.load] *)
  load_config : trace -> result pyvalue;
  (** [json.loads(text)] *)
  json_loads : string -> result pyvalue;
  (** [bs4.BeautifulSoup(html_file, "lxml")] on a file with this content *)
  BeautifulSoup : string -> result soup;
  (** [str(tag)] *)
  decode : page_element -> string;
  (** [repr] of a list or a dictionary *)
  container_repr : pyvalue -> string
}.

(** ** Computations with effects *)

Definition io (A : Type) : Type := trace -> result A * trace.

Definition ret {A : Type} (a : A) : io A := fun t => (Ok a, t).

Definition bind {A B : Type} (m : io A) (k : A -> io B) : io B :=
  fun t =>
    match m t with
    | (Ok a, t') => k a t'
    | (Raise e, t') => (Raise e, t')
    end.

Definition lift {A : Type} (r : result A) : io A := fun t => (r, t).

Definition print (line : string) : io unit :=
  fun t => (Ok tt, (t ++ [Print line])%list).

Notation "x <- m ;; k" := (bind m (fun x => k))
  (at level 61, m at next level, right associativity).
Notation "m ;; k" := (bind m (fun _ => k))
  (at level 61, right associativity).

Section Program.

Variable E : Environment.

(** [str(v)] *)
Definition py_str (v : pyvalue) : string :=
  match v with
  | PyNone => "None"
  | PyBool true => "True"
  | PyBool false => "False"
  | PyInt n => str_of_Z n
  | PyFloat repr => repr
  | PyStr s => s
  | PyList _ | PyDict _ => container_repr E v
  end.

(** [str(e)] for an exception with one argument. *)
Definition exn_str (e : exn) : string :=
  match e with PyExc _ arg => py_str arg end.

(** [get_config()] *)
Definition get_config : io pyvalue :=
  fun t => let answer := load_config E t in
           (answer, (t ++ [ReadConfig answer])%list).

Definition post (target : pyvalue) (data : string) : io response :=
  fun t => let answer := requests_post E t target data in
           (answer, (t ++ [HttpPost target data answer])%list).

Definition get (target : string) : io response :=
  fun t => let answer := requests_get E t target in
           (answer, (t ++ [HttpGet target answer])%list).

(** [invoke_anki_connect(url, action, **params)] *)
Definition invoke_anki_connect
  (url : pyvalue) (action : string) (params : list (string * pyvalue))
  : io pyvalue :=
  response <- post url (get_anki_connect_request action params) ;;
  match raise_for_status response with
  | Ok _ => ret tt
  | Raise e =>
      print ("Error getting response from AnkiConnect: " ++ exn_str e)
  end ;;
  response_table <- lift (json_loads E (text response)) ;;
  lift (response_table_outcome response_table).

(** [add_anki_note(anki_connect_url, anki_deck, anki_model, fields, tags)] *)
Definition add_anki_note
  (anki_connect_url anki_deck anki_model fields tags : pyvalue)
  : io pyvalue :=
  let note := PyDict [("deckName", anki_deck);
                      ("modelName", anki_model);
                      ("fields", fields);
                      ("tags", tags)] in
  invoke_anki_connect anki_connect_url "addNote" [("note", note)].

(** [add_synopsis_anki_note(synopsis, module, link)] *)
Definition add_synopsis_anki_note (synopsis module link : string)
  : io pyvalue :=
  config <- get_config ;;
  anki_connect_url <- lift (py_getitem config "anki-connect-url") ;;
  anki_deck <- lift (py_getitem config "anki-deck") ;;
  anki_model <- lift (py_getitem config "anki-model") ;;
  hint <- lift (py_getitem config "hint-synopsis") ;;
  tags <- lift (py_getitem config "tags-synopsis") ;;
  add_anki_note anki_connect_url anki_deck anki_model
    (PyDict [("Front", PyStr synopsis);
             ("Back", PyStr module);
             ("Hint", hint);
             ("Back Extra", PyStr "");
             ("Links", PyStr link);
             ("Reverse", PyStr "")])
    tags.

(** The documentation address built by [create_synopsis_note]. *)
Definition docs_url (module : string) (python_version : Z) : string :=
  "https://docs.python.org/" ++ str_of_Z python_version ++ "/library/"
  ++ module ++ ".html".

(** [create_synopsis_note(module, python_version)] *)
Definition create_synopsis_note (module : string) (python_version : Z)
  : io pyvalue :=
  response <- get (docs_url module python_version) ;;
  match raise_for_status response with
  | Raise e =>
      print ("Failed to get docs for " ++ module ++ ": " ++ exn_str e) ;;
      ret PyNone
  | Ok _ =>
      soup <- lift (BeautifulSoup E (html_file response)) ;;
      synopsis <- lift (get_synopsis (decode E) soup) ;;
      add_synopsis_anki_note synopsis module
        (docs_url module python_version)
  end.

(** [gui_browse_notes(note_ids)] *)
Definition gui_browse_notes (note_ids : list pyvalue) : io pyvalue :=
  config <- get_config ;;
  anki_connect_url <- lift (py_getitem config "anki-connect-url") ;;
  invoke_anki_connect anki_connect_url "guiBrowse"
    [("query", PyStr ("nid:" ++ join "," (map py_str note_ids)))].

(** The [for] loop of [main], started with the accumulator [note_ids]. *)
Fixpoint main_loop (modules : list string) (python_version : Z)
  (note_ids : list pyvalue) : io (list pyvalue) :=
  match modules with
  | [] => ret note_ids
  | module :: rest =>
      note_id <- create_synopsis_note module python_version ;;
      match note_id with
      | PyNone => main_loop rest python_version note_ids
      | _ =>
          print ("Added synopsis note for " ++ module ++ ": "
                 ++ py_str note_id) ;;
          main_loop rest python_version (note_ids ++ [note_id])%list
      end
  end.

(** [main()], for the arguments [modules] and [--python-version] that
    [get_args] parsed from the command line. *)
Definition main (modules : list string) (python_version : Z) : io Z :=
  note_ids <- main_loop modules python_version [] ;;
  gui_browse_notes note_ids ;;
  ret 0%Z.

End Program.

(** * What the properties speak of *)

(** ** Words of the specification *)

(** The words of the specification: the strings of a sequence put one
    after the other. *)
Definition concatenation (parts : list string) : string :=
  fold_right String.append "" parts.

(** The decoded body is an object with the two fields [error] and
    [result], and no other. *)
Definition has_exactly_error_and_result (body : pyvalue) : Prop :=
  exists entries,
    body = PyDict entries
    /\ Permutation (map fst entries) ["error"; "result"].

(** The field [key] of a decoded body, when it is an object that has it. *)
Definition field (key : string) (body : pyvalue) : option pyvalue :=
  match body with
  | PyDict entries => dict_get key entries
  | _ => None
  end.

Definition error_is_non_null (body : pyvalue) : Prop :=
  exists error, field "error" body = Some error /\ error <> PyNone.

(** A string between double quotes. *)
Definition quoted (s : string) : string := dquote ++ s ++ dquote.

(** The text of a request, up to and including its action. *)
Definition request_head (action : string) : string :=
  "{" ++ quoted "action" ++ ": " ++ Json.encode_basestring action.

(** The keys of a dictionary, in insertion order. *)
Definition keys (v : pyvalue) : list string :=
  match v with
  | PyDict entries => map fst entries
  | _ => []
  end.

(** ** What a call does *)

Section CallEvents.

Variable E : Environment.

(** The line printed when the answer to a POST has an error status. *)
Definition transport_diagnostic (r : response) : list event :=
  match raise_for_status r with
  | Ok _ => []
  | Raise e =>
      [Print ("Error getting response from AnkiConnect: " ++ exn_str E e)]
  end.

(** The events of one call of [invoke_anki_connect] started after [t],
    and its result. *)
Definition invoke_events (t : trace) (url : pyvalue) (action : string)
  (params : list (string * pyvalue)) : list event :=
  let data := get_anki_connect_request action params in
  let answer := requests_post E t url data in
  HttpPost url data answer
  :: match answer with
     | Ok r => transport_diagnostic r
     | Raise _ => []
     end.

Definition invoke_result (t : trace) (url : pyvalue) (action : string)
  (params : list (string * pyvalue)) : result pyvalue :=
  let? r := requests_post E t url (get_anki_connect_request action params) in
  let? response_table := json_loads E (text r) in
  response_table_outcome response_table.

End CallEvents.

(** ** Counting what a run does *)

Definition is_config_read (e : event) : bool :=
  match e with ReadConfig _ => true | _ => false end.

Definition is_fetch (e : event) : bool :=
  match e with HttpGet _ _ => true | _ => false end.

(** A fetch that was answered with a status that is not an error. *)
Definition is_good_fetch (e : event) : bool :=
  match e with
  | HttpGet _ (Ok r) =>
      match raise_for_status r with Ok _ => true | Raise _ => false end
  | _ => false
  end.

(** A POST whose body is a request for [action]. *)
Definition is_call (action : string) (e : event) : bool :=
  match e with
  | HttpPost _ data _ => String.prefix (request_head action ++ ",") data
  | _ => false
  end.

Definition count (f : event -> bool) (t : trace) : nat :=
  List.length (filter f t).

(** ** Notes *)

(** The value of [note] in [add_anki_note] when it is called from
    [add_synopsis_anki_note]. *)
Definition synopsis_note (anki_deck anki_model hint tags : pyvalue)
  (synopsis module link : string) : pyvalue :=
  PyDict [("deckName", anki_deck);
          ("modelName", anki_model);
          ("fields", PyDict [("Front", PyStr synopsis);
                             ("Back", PyStr module);
                             ("Hint", hint);
                             ("Back Extra", PyStr "");
                             ("Links", PyStr link);
                             ("Reverse", PyStr "")]);
          ("tags", tags)].

(** The five values that [add_synopsis_anki_note] takes from the
    configuration, in the order it looks them up. *)
Definition config_values (config : pyvalue)
  : result (pyvalue * pyvalue * pyvalue * pyvalue * pyvalue) :=
  let? anki_connect_url := py_getitem config "anki-connect-url" in
  let? anki_deck := py_getitem config "anki-deck" in
  let? anki_model := py_getitem config "anki-model" in
  let? hint := py_getitem config "hint-synopsis" in
  let? tags := py_getitem config "tags-synopsis" in
  Ok (anki_connect_url, anki_deck, anki_model, hint, tags).

(** ** Created notes *)

(** The note identifiers that the calls of [addNote] in a trace returned:
    for each answered call, what [invoke_anki_connect] makes of the answer,
    when that is a value other than [None]. *)
Definition created_by (E : Environment) (e : event) : list pyvalue :=
  match e with
  | HttpPost _ _ (Ok r) =>
      if is_call "addNote" e
      then match (let? response_table := json_loads E (text r) in
                  response_table_outcome response_table) with
           | Ok PyNone | Raise _ => []
           | Ok note_id => [note_id]
           end
      else []
  | _ => []
  end.

Definition created_ids (E : Environment) (t : trace) : list pyvalue :=
  flat_map (created_by E) t.

(** * Runs in a scripted world *)

Module Demo.

Definition answer_page (target : string) (code : Z) (why body : string)
  : response :=
  {| status_code := code; reason := why; url := target;
     iter_content := fun _ => [body]; text := body |}.

(** The documentation site has a page for [ast] and one for [io]. *)
Definition docs (t : trace) (target : string) : result response :=
  if String.eqb target "https://docs.python.org/3/library/ast.html"
  then Ok (answer_page target 200 "OK" "ast page")
  else if String.eqb target "https://docs.python.org/3/library/io.html"
  then Ok (answer_page target 200 "OK" "io page")
  else Ok (answer_page target 404 "Not Found" "").

(** The dash U+2014, in UTF-8. *)
Definition em_dash : string :=
  String "226" (String "128" (String "148" EmptyString)).

(** A page whose heading is the module name in a [code] element, the
    separator of the documentation (a space, the dash and a space) and the
    synopsis, and the link to the heading. *)
Definition page_of (module synopsis : string) : soup :=
  [Tag "html" []
     [Tag "head" [] [Tag "title" [] [NavigableString module]];
      Tag "body" []
        [Tag "h1" []
           [Tag "code" [] [NavigableString module];
            NavigableString (" " ++ em_dash ++ " " ++ synopsis);
            Tag "a" [("class", "headerlink")] [NavigableString "#"]];
         Tag "h1" [] [NavigableString "another heading"]]]].

Definition parse (content : string) : result soup :=
  if String.eqb content "ast page"
  then Ok (page_of "ast" "Abstract Syntax Trees")
  else if String.eqb content "io page"
  then Ok (page_of "io" "Core tools for working with streams")
  else Ok [].

Definition render (e : page_element) : string :=
  match e with
  | Tag name _ _ => "<" ++ name ++ "/>"
  | NavigableString s => s
  end.

Definition anki_url : pyvalue := PyStr "http://localhost:8765".

Definition tags : pyvalue := PyList [PyStr "python"; PyStr "stdlib"].

Definition config : pyvalue :=
  PyDict [("anki-connect-url", anki_url);
          ("anki-deck", PyStr "Python");
          ("anki-model", PyStr "Basic");
          ("hint-synopsis", PyStr "module");
          ("tags-synopsis", tags)].

Definition is_post (e : event) : bool :=
  match e with HttpPost _ _ _ => true | _ => false end.

(** AnkiConnect answers its n-th request with the text [reply n], under
    the status [code]. *)
Definition anki (code : Z) (t : trace) (target : pyvalue) (data : string)
  : result response :=
  Ok (answer_page "http://localhost:8765" code "status"
        ("reply " ++ str_of_Z (Z.of_nat (count is_post t)))).

Definition envelope (result_value error_value : pyvalue) : pyvalue :=
  PyDict [("result", result_value); ("error", error_value)].

(** The replies decode to two new notes and then to the list of both. *)
Definition loads (text : string) : result pyvalue :=
  if String.eqb text "reply 0" then Ok (envelope (PyInt 1001) PyNone)
  else if String.eqb text "reply 1" then Ok (envelope (PyInt 1002) PyNone)
  else if String.eqb text "reply 2"
  then Ok (envelope (PyList [PyInt 1001; PyInt 1002]) PyNone)
  else Raise (PyExc "JSONDecodeError" (PyStr "Expecting value")).

Definition duplicate : pyvalue :=
  PyStr "cannot create note because it is a duplicate".

(** The first reply reports a duplicate. *)
Definition loads_duplicate (text : string) : result pyvalue :=
  if String.eqb text "reply 0"
  then Ok (envelope PyNone duplicate)
  else loads text.

Definition world (get : trace -> string -> result response)
  (code : Z) (decode_json : string -> result pyvalue) : Environment :=
  {| requests_get := get;
     requests_post := anki code;
     load_config := fun _ => Ok config;
     json_loads := decode_json;
     BeautifulSoup := parse;
     decode := render;
     container_repr := fun _ => "[...]" |}.

(** Everything works. *)
Definition E : Environment := world docs 200 loads.

(** AnkiConnect answers with status 500, and the same bodies. *)
Definition E_500 : Environment := world docs 500 loads.

(** AnkiConnect refuses the first note. *)
Definition E_duplicate : Environment := world docs 200 loads_duplicate.

(** The documentation site cannot be reached. *)
Definition unreachable : exn :=
  PyExc "ConnectionError" (PyStr "Max retries exceeded").

Definition E_offline : Environment :=
  world (fun _ _ => Raise unreachable) 200 loads.

Definition modules : list string :=
  ["ast"; "nonexistent_module_xyz"; "io"].

Definition ast_link : string :=
  "https://docs.python.org/3/library/ast.html".

Definition ast_page : response := answer_page ast_link 200 "OK" "ast page".

Definition missing_link : string :=
  "https://docs.python.org/3/library/nonexistent_module_xyz.html".

Definition missing_page : response :=
  answer_page missing_link 404 "Not Found" "".

(** The first answer of AnkiConnect under the status [code]. *)
Definition first_reply (code : Z) : response :=
  answer_page "http://localhost:8765" code "status" "reply 0".

Definition printed (t : trace) : list string :=
  flat_map (fun e => match e with Print line => [line] | _ => [] end) t.

(** The body of the request a trace ends with. *)
Definition last_post_data (t : trace) : option string :=
  match last t (Print "") with
  | HttpPost _ data _ => Some data
  | _ => None
  end.

(** No page for any module, and no configuration file. *)
Definition no_config : exn :=
  PyExc "FileNotFoundError" (PyStr "config.json").

Definition E_no_config : Environment :=
  {| requests_get := fun _ target =>
                       Ok (answer_page target 404 "Not Found" "");
     requests_post := anki 200;
     load_config := fun _ => Raise no_config;
     json_loads := loads;
     BeautifulSoup := parse;
     decode := render;
     container_repr := fun _ => "[...]" |}.

End Demo.

(** * What was claimed of every run *)

(** No run ends with the exception of a failed fetch. *)
Definition fetch_failures_never_abort : Prop :=
  forall (E : Environment) (modules : list string) (python_version : Z)
         (e : exn) (t : trace) (target : string),
    main E modules python_version [] = (Raise e, t) ->
    last t (Print "") <> HttpGet target (Raise e).

(** Every run that comes to its end has read the configuration twice. *)
Definition two_config_reads_per_run : Prop :=
  forall (E : Environment) (modules : list string) (python_version : Z)
         (status : Z) (t : trace),
    main E modules python_version [] = (Ok status, t) ->
    count is_config_read t = 2%nat.

(** Every run sends one [guiBrowse]. *)
Definition every_run_browses_once : Prop :=
  forall (E : Environment) (modules : list string) (python_version : Z),
    count (is_call "guiBrowse") (snd (main E modules python_version []))
    = 1%nat.

(** * More of what the properties speak of *)

(** ** Documents *)

(** An element called [name] occurs in the tree of [e], at any depth. *)
Fixpoint has_element (name : string) (e : page_element) : bool :=
  match e with
  | Tag n _ contents =>
      String.eqb n name || existsb (has_element name) contents
  | NavigableString _ => false
  end.

Definition doc_has_element (name : string) (doc : soup) : bool :=
  existsb (has_element name) doc.

(** ** Traces *)

Definition is_post (e : event) : bool :=
  match e with HttpPost _ _ _ => true | _ => false end.

Definition is_print (e : event) : bool :=
  match e with Print _ => true | _ => false end.

(** The addresses that were fetched, in the order of the requests. *)
Definition fetched (t : trace) : list string :=
  flat_map (fun e => match e with HttpGet target _ => [target] | _ => [] end)
    t.

(** Every POST of [t] comes right after a successful read of the
    configuration and goes to the [anki-connect-url] that this read gave;
    [previous] is the event before [t], if any. *)
Fixpoint configured (previous : option event) (t : trace) : Prop :=
  match t with
  | [] => True
  | e :: rest =>
      match e with
      | HttpPost target _ _ =>
          exists config,
            previous = Some (ReadConfig (Ok config))
            /\ py_getitem config "anki-connect-url" = Ok target
      | _ => True
      end
      /\ configured (Some e) rest
  end.

(** The addresses of the first [k] modules of a list. *)
Definition links (python_version : Z) (k : nat) (modules : list string)
  : list string :=
  map (fun module => docs_url module python_version) (firstn k modules).

(** The event a trace ends with, [previous] when it is empty. *)
Definition after (previous : option event) (t : trace) : option event :=
  fold_left (fun _ e => Some e) t previous.

(** ** Texts *)

(** [s.split(sep)] for a separator of one ASCII character, a byte that
    occurs in UTF-8 only as that character. *)
Fixpoint split_on (sep : ascii) (s : string) : list string :=
  match s with
  | EmptyString => [EmptyString]
  | String c rest =>
      if Ascii.eqb c sep then EmptyString :: split_on sep rest
      else match split_on sep rest with
           | [] => [String c EmptyString]
           | part :: parts => String c part :: parts
           end
  end.

(** [int(s)] for a decimal numeral. *)
Definition int_of_str (s : string) : option Z :=
  option_map Z.of_int (NilZero.int_of_string s).

(** ** Configurations *)

(** The keys that [add_synopsis_anki_note] looks up, in its order. *)
Definition config_keys : list string :=
  ["anki-connect-url"; "anki-deck"; "anki-model"; "hint-synopsis";
   "tags-synopsis"].

Definition lacks (entries : list (string * pyvalue)) (key : string) : bool :=
  match dict_get key entries with
  | Some _ => false
  | None => true
  end.

(** ** What the processing of one module does *)

(** The result of [create_synopsis_note] and the events it adds, case by
    case: the fetch fails in transport; it is answered with an error
    status; the page cannot be parsed or has no heading; the configuration
    cannot be read or lacks a value; the note is submitted. *)
Inductive module_footprint (E : Environment) (module : string)
  (python_version : Z) : result pyvalue -> list event -> Prop :=
| footprint_transport (e : exn) :
    module_footprint E module python_version (Raise e)
      [HttpGet (docs_url module python_version) (Raise e)]
| footprint_skipped (page : response) :
    error_status page ->
    module_footprint E module python_version (Ok PyNone)
      [HttpGet (docs_url module python_version) (Ok page);
       Print ("Failed to get docs for " ++ module ++ ": "
              ++ http_error_msg page)]
| footprint_unparsed (page : response) (e : exn) :
    ~ error_status page ->
    module_footprint E module python_version (Raise e)
      [HttpGet (docs_url module python_version) (Ok page)]
| footprint_no_config (page : response) (answer : result pyvalue)
    (e : exn) :
    ~ error_status page ->
    (let? config := answer in config_values config) = Raise e ->
    module_footprint E module python_version (Raise e)
      [HttpGet (docs_url module python_version) (Ok page);
       ReadConfig answer]
| footprint_submitted (page : response)
    (config anki_connect_url anki_deck anki_model hint tags : pyvalue)
    (synopsis : string) (answer : result response) :
    ~ error_status page ->
    config_values config
    = Ok (anki_connect_url, anki_deck, anki_model, hint, tags) ->
    module_footprint E module python_version
      (let? r := answer in
       let? response_table := json_loads E (text r) in
       response_table_outcome response_table)
      ([HttpGet (docs_url module python_version) (Ok page);
        ReadConfig (Ok config);
        HttpPost anki_connect_url
          (get_anki_connect_request "addNote"
             [("note", synopsis_note anki_deck anki_model hint tags synopsis
                         module (docs_url module python_version))])
          answer]
       ++ match answer with
          | Ok r => transport_diagnostic E r
          | Raise _ => []
          end)%list.

(** ** More scripted worlds *)

Module Scenario.

(** A configuration without its model and its hint. *)
Definition incomplete_entries : list (string * pyvalue) :=
  [("anki-connect-url", Demo.anki_url);
   ("anki-deck", PyStr "Python");
   ("tags-synopsis", Demo.tags)].

Definition E_incomplete : Environment :=
  {| requests_get := Demo.docs;
     requests_post := Demo.anki 200;
     load_config := fun _ => Ok (PyDict incomplete_entries);
     json_loads := Demo.loads;
     BeautifulSoup := Demo.parse;
     decode := Demo.render;
     container_repr := fun _ => "[...]" |}.

(** AnkiConnect cannot be reached. *)
Definition E_anki_down : Environment :=
  {| requests_get := Demo.docs;
     requests_post := fun _ _ _ => Raise Demo.unreachable;
     load_config := fun _ => Ok Demo.config;
     json_loads := Demo.loads;
     BeautifulSoup := Demo.parse;
     decode := Demo.render;
     container_repr := fun _ => "[...]" |}.

(** Every page is there, and none has a heading. *)
Definition E_blank : Environment :=
  {| requests_get := fun _ target =>
                       Ok (Demo.answer_page target 200 "OK" "blank");
     requests_post := Demo.anki 200;
     load_config := fun _ => Ok Demo.config;
     json_loads := Demo.loads;
     BeautifulSoup := Demo.parse;
     decode := Demo.render;
     container_repr := fun _ => "[...]" |}.

(** The configuration file is gone once two requests were sent. *)
Definition E_config_lost : Environment :=
  {| requests_get := Demo.docs;
     requests_post := Demo.anki 200;
     load_config := fun t => if Nat.ltb (count Demo.is_post t) 2
                             then Ok Demo.config
                             else Raise Demo.no_config;
     json_loads := Demo.loads;
     BeautifulSoup := Demo.parse;
     decode := Demo.render;
     container_repr := fun _ => "[...]" |}.

End Scenario.

(** * Properties *)

(** ** Rendering *)

Example str_of_Z_examples :
  str_of_Z 0 = "0" /\ str_of_Z (-12) = "-12"
  /\ str_of_Z 1496198395707 = "1496198395707".
Proof. repeat split; reflexivity. Qed.

Example dumps_request_example :
  get_anki_connect_request "guiBrowse" [("query", PyStr "nid:1,2")]
  = "{" ++ dquote ++ "action" ++ dquote ++ ": " ++ dquote ++ "guiBrowse"
    ++ dquote ++ ", " ++ dquote ++ "version" ++ dquote ++ ": 6, " ++ dquote
    ++ "params" ++ dquote ++ ": {" ++ dquote ++ "query" ++ dquote ++ ": "
    ++ dquote ++ "nid:1,2" ++ dquote ++ "}}".
Proof. reflexivity. Qed.

(** ** Slices *)

Lemma firstn_pred_length {A : Type} (l : list A) :
  firstn (List.length l - 1) l = removelast l.
Proof.
  rewrite removelast_firstn_len. f_equal. lia.
Qed.

(** [l[1:-1]] is [l] without its first and its last element. *)
Lemma slice_1_minus_1 {A : Type} (l : list A) :
  Slice.slice (Some 1%Z) (Some (-1)%Z) l = without_first_and_last l.
Proof.
  unfold Slice.slice, without_first_and_last.
  destruct l as [|a [|b l']]; try reflexivity.
  set (m := b :: l').
  assert (Hlen : List.length (a :: m) = S (List.length m)) by reflexivity.
  rewrite Hlen. unfold Slice.adjust.
  assert (Hm : (1 <= List.length m)%nat) by (subst m; simpl; lia).
  destruct (Z.ltb_spec (-1) 0); [|lia].
  destruct (Z.ltb_spec (-1 + Z.of_nat (S (List.length m))) 0); [lia|].
  destruct (Z.ltb_spec 1 0); [lia|].
  destruct (Z.ltb_spec (Z.of_nat (S (List.length m))) 1); [lia|].
  change (Z.to_nat 1) with 1%nat. cbn [skipn tl].
  replace (Z.to_nat (-1 + Z.of_nat (S (List.length m)) - 1))
    with (List.length m - 1)%nat by lia.
  apply firstn_pred_length.
Qed.

Lemma append_empty_r (s : string) : s ++ "" = s.
Proof. induction s as [|c s IH]; cbn; [reflexivity | now rewrite IH]. Qed.

Lemma join_empty_sep (parts : list string) :
  join "" parts = concatenation parts.
Proof.
  induction parts as [|p [|q rest] IH]; cbn in *.
  - reflexivity.
  - now rewrite append_empty_r.
  - now rewrite IH.
Qed.

Lemma join_empty_cons (p : string) (parts : list string) :
  join "" (p :: parts) = p ++ join "" parts.
Proof. now rewrite !join_empty_sep. Qed.

(** ** Code points *)

Lemma code_points_unfold (c d : ascii) (rest : string) :
  code_points (String c (String d rest))
  = if is_continuation d
    then match code_points (String d rest) with
         | [] => [String c EmptyString]
         | unit :: units => String c unit :: units
         end
    else String c EmptyString :: code_points (String d rest).
Proof. reflexivity. Qed.

(** The first code point of a [str] is its first byte with the
    continuation bytes that follow it. *)
Lemma code_points_cons (c : ascii) (rest : string) :
  exists unit,
    code_points (String c rest) = unit :: code_points (skip_continuation rest)
    /\ unit ++ skip_continuation rest = String c rest.
Proof.
  revert c. induction rest as [|d rest IH]; intros c.
  - exists (String c ""). split; reflexivity.
  - destruct (IH d) as (unit & Hunit & Hcat).
    rewrite code_points_unfold. cbn [skip_continuation].
    destruct (is_continuation d).
    + rewrite Hunit. exists (String c unit). split; [reflexivity|].
      cbn. now rewrite Hcat.
    + exists (String c ""). split; reflexivity.
Qed.

(** The code points of a [str], one after the other, are the [str]. *)
Lemma join_code_points (s : string) : join "" (code_points s) = s.
Proof.
  induction s as [|c [|d rest] IH]; try reflexivity.
  rewrite code_points_unfold.
  destruct (is_continuation d).
  - destruct (code_points (String d rest)) as [|unit units];
      [discriminate|].
    rewrite join_empty_cons in *. cbn. now rewrite IH.
  - rewrite join_empty_cons, IH. reflexivity.
Qed.

Lemma skip_continuation_length (s : string) :
  (String.length (skip_continuation s) <= String.length s)%nat.
Proof.
  induction s as [|c s IH]; cbn; [lia|].
  destruct (is_continuation c); cbn; lia.
Qed.

(** A [str] that does not begin inside a code point. *)
Lemma skip_continuation_fixed (d : ascii) (s : string) :
  skip_continuation (String d s) = String d s -> is_continuation d = false.
Proof.
  cbn. destruct (is_continuation d); [|reflexivity]. intros H.
  pose proof (skip_continuation_length s) as Hlen. rewrite H in Hlen.
  cbn in Hlen. lia.
Qed.

Lemma code_points_app (a b : string) :
  skip_continuation b = b ->
  code_points (a ++ b) = (code_points a ++ code_points b)%list.
Proof.
  intros Hb. induction a as [|c [|d a] IH]; [reflexivity | |].
  - cbn [append]. destruct b as [|d b]; [reflexivity|].
    rewrite code_points_unfold, (skip_continuation_fixed d b Hb).
    reflexivity.
  - change (String c (String d a) ++ b) with (String c (String d (a ++ b))).
    change (String d a ++ b) with (String d (a ++ b)) in IH.
    rewrite !code_points_unfold, IH.
    destruct (is_continuation d); [|reflexivity].
    destruct (code_points (String d a)) as [|unit units] eqn:Hunits;
      [|reflexivity].
    destruct (code_points_cons d a) as (unit & Hunit & _).
    rewrite Hunit in Hunits. discriminate.
Qed.

Lemma str_len_cons (c : ascii) (rest : string) :
  (str_len rest <= str_len (String c rest))%nat
  /\ (1 <= str_len (String c rest))%nat.
Proof.
  unfold str_len. destruct rest as [|d rest]; [cbn; lia|].
  rewrite code_points_unfold.
  destruct (is_continuation d);
    [destruct (code_points (String d rest))|]; cbn [List.length]; lia.
Qed.

Lemma str_len_cons_plain (c d : ascii) (rest : string) :
  is_continuation d = false ->
  str_len (String c (String d rest)) = S (str_len (String d rest)).
Proof.
  intros Hd. unfold str_len. now rewrite code_points_unfold, Hd.
Qed.

Lemma str_len_le_length (s : string) : (str_len s <= String.length s)%nat.
Proof.
  unfold str_len. induction s as [|c [|d rest] IH]; try (cbn; lia).
  rewrite code_points_unfold.
  destruct (is_continuation d);
    [destruct (code_points (String d rest))|];
    cbn [List.length String.length] in *; lia.
Qed.

(** ** Slices of a [str] *)

Lemma slice_from {A : Type} (n : nat) (l : list A) :
  Slice.slice (Some (Z.of_nat n)) None l = skipn n l.
Proof.
  unfold Slice.slice, Slice.adjust.
  destruct (Z.ltb_spec (Z.of_nat n) 0); [lia|].
  destruct (Z.ltb_spec (Z.of_nat (List.length l)) (Z.of_nat n)).
  - rewrite Nat2Z.id, Z.sub_diag. cbn [Z.to_nat firstn].
    symmetry. apply skipn_all2. lia.
  - rewrite Nat2Z.id. apply firstn_all2. rewrite length_skipn. lia.
Qed.

(** Dropping [n] characters is dropping [n] code points. *)
Lemma drop_chars_skipn (n : nat) (s : string) :
  join "" (skipn n (code_points s)) = drop_chars n s.
Proof.
  revert s. induction n as [|n IH]; intros s.
  - cbn [skipn]. rewrite join_code_points. now destruct s.
  - destruct s as [|c s]; [reflexivity|].
    destruct (code_points_cons c s) as (unit & -> & _).
    cbn [skipn drop_chars]. apply IH.
Qed.

(** [s[3:]] is [s] without its first three characters. *)
Lemma str_slice_from (n : nat) (s : string) :
  Slice.str_slice (Some (Z.of_nat n)) None s = drop_chars n s.
Proof.
  unfold Slice.str_slice. now rewrite slice_from, drop_chars_skipn.
Qed.

Lemma drop_chars_short (n : nat) (s : string) :
  (String.length s <= n)%nat -> drop_chars n s = "".
Proof.
  revert s. induction n as [|n IH]; intros [|c s] H; cbn in *;
    try reflexivity; try lia.
  apply IH. pose proof (skip_continuation_length s). lia.
Qed.

Lemma drop_chars_str_len (n : nat) (s : string) :
  (str_len s <= n)%nat -> drop_chars n s = "".
Proof.
  intros H. rewrite <- drop_chars_skipn.
  now rewrite skipn_all2.
Qed.

(** The heading of a page of the documentation, whose separator holds the
    dash U+2014, and a text that begins with a letter of two bytes. *)
Example str_slice_examples :
  Slice.str_slice (Some 3%Z) None
    (" " ++ Demo.em_dash ++ " Abstract Syntax Trees")
  = "Abstract Syntax Trees"
  /\ Slice.str_slice (Some 3%Z) None
       (String "195" (String "169" " abc")) = "bc"
  /\ str_len (" " ++ Demo.em_dash ++ " ") = 3%nat.
Proof. repeat split; reflexivity. Qed.

Example escape_example :
  Json.escape ("a" ++ Demo.em_dash ++ "\"
               ++ String "240" (String "159" (String "152" (String "128" ""))))
  = "a\u2014\\\ud83d\ude00".
Proof. reflexivity. Qed.

(** ** The extractor *)

(** What [find] returns is an element of the name that was asked for. *)
Lemma find_in_element (name : string) :
  forall (e hit : page_element),
    find_in name e = Some hit ->
    exists attrs contents, hit = Tag name attrs contents.
Proof.
  fix IH 1. intros [n attrs contents | txt] hit; cbn [find_in].
  - destruct (String.eqb_spec n name) as [-> | _].
    + intros [= <-]. now exists attrs, contents.
    + induction contents as [|c rest IHrest]; [discriminate|].
      destruct (find_in name c) as [hit'|] eqn:Hc.
      * intros [= <-]. now apply (IH c).
      * exact IHrest.
  - discriminate.
Qed.

Lemma find_element (name : string) (doc : soup) (hit : page_element) :
  find name doc = Some hit ->
  exists attrs contents, hit = Tag name attrs contents.
Proof.
  induction doc as [|e rest IH]; cbn [find]; [discriminate|].
  destruct (find_in name e) as [hit'|] eqn:He.
  - intros [= <-]. now apply find_in_element with e.
  - exact IH.
Qed.

(** What [get_synopsis] returns for a heading with these [contents]. *)
Lemma get_synopsis_of_heading
  (decode : page_element -> string) (doc : soup)
  (name : string) (attrs : list (string * string))
  (contents : list page_element) :
  find "h1" doc = Some (Tag name attrs contents) ->
  get_synopsis decode doc
  = Ok (drop_chars 3
          (concatenation
             (map (element_str decode) (without_first_and_last contents)))).
Proof.
  intros Hfind. unfold get_synopsis. rewrite Hfind.
  rewrite slice_1_minus_1, join_empty_sep.
  now rewrite (str_slice_from 3).
Qed.

(** C1: when the document has no first [h1], or what is found is not an
    element, [get_synopsis] raises its structure error; otherwise it
    returns the renderings of the heading's children, the first and the
    last child left out, put together, less the first three characters. *)
Theorem get_synopsis_spec (decode : page_element -> string) (doc : soup) :
  match find "h1" doc with
  | Some (Tag _ _ contents) =>
      get_synopsis decode doc
      = Ok (drop_chars 3
              (concatenation
                 (map (element_str decode)
                    (without_first_and_last contents))))
  | Some (NavigableString _) | None =>
      get_synopsis decode doc
      = Raise (Exception "h1 should be an instance of bs4.Tag")
  end.
Proof.
  destruct (find "h1" doc) as [[name attrs contents|txt]|] eqn:Hfind.
  - now apply get_synopsis_of_heading with name attrs.
  - unfold get_synopsis. now rewrite Hfind.
  - unfold get_synopsis. now rewrite Hfind.
Qed.

(** C10: a heading with at most two children has nothing left between its
    first and its last child, and a heading whose remaining children render
    to at most three characters (code points, however many bytes they take)
    loses them all: in both cases [get_synopsis] does not raise and returns
    the empty string. *)
Theorem get_synopsis_few_children
  (decode : page_element -> string) (doc : soup)
  (name : string) (attrs : list (string * string))
  (contents : list page_element) :
  find "h1" doc = Some (Tag name attrs contents) ->
  ((List.length contents <= 2)%nat ->
   without_first_and_last contents = []
   /\ get_synopsis decode doc = Ok "")
  /\ ((str_len
         (concatenation
            (map (element_str decode) (without_first_and_last contents)))
       <= 3)%nat ->
      get_synopsis decode doc = Ok "").
Proof.
  intros Hfind.
  rewrite (get_synopsis_of_heading decode doc name attrs contents Hfind).
  split.
  - intros Hlen.
    assert (Hmid : without_first_and_last contents = []).
    { destruct contents as [|a [|b [|c rest]]]; cbn in *;
        try reflexivity; lia. }
    rewrite Hmid. split; reflexivity.
  - intros Hlen. now rewrite drop_chars_str_len.
Qed.

(** ** The response envelope *)

Lemma raises_Raise {A : Type} (e : exn) : raises (@Raise A e).
Proof. now exists e. Qed.

Lemma not_raises_Ok {A : Type} (a : A) : ~ raises (Ok a).
Proof. intros [e He]. discriminate. Qed.

Create HintDb envelope.
#[local] Hint Resolve raises_Raise : envelope.

Lemma prefix_app (a b : string) :
  String.prefix a b = true -> exists rest, b = a ++ rest.
Proof.
  revert a. induction b as [|d b IH]; intros [|c a]; cbn;
    try discriminate.
  - intros _. now exists "".
  - intros _. now exists (String d b).
  - destruct (ascii_dec c d) as [-> | _]; [|discriminate].
    intros H. destruct (IH a H) as [rest ->]. now exists rest.
Qed.

(** A [str] that holds [error] has five characters or more. *)
Lemma str_contains_error_len (hay : string) :
  str_contains "error" hay = true -> (5 <= str_len hay)%nat.
Proof.
  assert (Hprefix : forall s, String.prefix "error" s = true ->
                              (5 <= str_len s)%nat).
  { intros s H. apply prefix_app in H. destruct H as [rest ->].
    cbn [append]. rewrite !str_len_cons_plain by reflexivity.
    pose proof (str_len_cons "r" rest). lia. }
  induction hay as [|c hay IH]; cbn [str_contains]; intros H;
    apply orb_true_iff in H; destruct H as [H | H].
  - now apply Hprefix.
  - discriminate.
  - now apply Hprefix.
  - specialize (IH H). pose proof (str_len_cons c hay). lia.
Qed.

Lemma short_str_lacks_error (s : string) :
  str_len s = 2%nat -> str_contains "error" s = false.
Proof.
  intros Hlen. destruct (str_contains "error" s) eqn:H; [|reflexivity].
  apply str_contains_error_len in H. lia.
Qed.

Lemma two_keys_present (entries : list (string * pyvalue)) :
  List.length entries = 2%nat ->
  dict_get "error" entries <> None ->
  dict_get "result" entries <> None ->
  Permutation (map fst entries) ["error"; "result"].
Proof.
  destruct entries as [|[k1 v1] [|[k2 v2] [|? ?]]]; try discriminate.
  intros _. cbn.
  destruct (String.eqb_spec k1 "error") as [E1 | E1];
    destruct (String.eqb_spec k1 "result") as [R1 | R1];
    destruct (String.eqb_spec k2 "error") as [E2 | E2];
    destruct (String.eqb_spec k2 "result") as [R2 | R2];
    intros He Hr; subst; try congruence; try discriminate;
    first [apply Permutation_refl | apply perm_swap].
Qed.

Lemma two_keys_inv (entries : list (string * pyvalue)) :
  Permutation (map fst entries) ["error"; "result"] ->
  exists error result,
    entries = [("error", error); ("result", result)]
    \/ entries = [("result", result); ("error", error)].
Proof.
  intros HP. apply Permutation_sym in HP.
  assert (Hlen := Permutation_length HP). rewrite length_map in Hlen.
  destruct entries as [|[k1 v1] [|[k2 v2] [|? ?]]]; try discriminate.
  cbn in HP. apply Permutation_length_2_inv in HP.
  destruct HP as [H | H]; injection H as <- <-.
  - exists v1, v2. now left.
  - exists v2, v1. now right.
Qed.

(** An envelope of the right shape: the outcome is decided by [error]. *)
Lemma outcome_of_two_fields (body : pyvalue) :
  has_exactly_error_and_result body ->
  exists error result,
    field "error" body = Some error
    /\ field "result" body = Some result
    /\ response_table_outcome body
       = match error with
         | PyNone => Ok result
         | _ => Raise (PyExc "Exception" error)
         end.
Proof.
  intros (entries & -> & HP).
  destruct (two_keys_inv entries HP) as (error & result & [-> | ->]);
    exists error, result; repeat split; destruct error; reflexivity.
Qed.

(** A call that returns has seen an envelope of the right shape. *)
Lemma outcome_Ok_shape (body result : pyvalue) :
  response_table_outcome body = Ok result ->
  has_exactly_error_and_result body.
Proof.
  destruct body as [| b | n | r | s | items | entries]; try discriminate;
    unfold response_table_outcome; cbn [py_len bind_result].
  - destruct (Nat.eqb_spec (str_len s) 2) as [Hlen | Hlen]; cbn;
      try discriminate.
    rewrite (short_str_lacks_error s Hlen). discriminate.
  - destruct (Nat.eqb (List.length items) 2); cbn; try discriminate.
    destruct (existsb _ items); cbn; try discriminate.
    destruct (existsb _ items); cbn; discriminate.
  - destruct (Nat.eqb_spec (List.length entries) 2) as [Hlen | Hlen];
      cbn; try discriminate.
    destruct (dict_get "error" entries) as [error|] eqn:He; cbn;
      try discriminate.
    destruct (dict_get "result" entries) as [res|] eqn:Hr; cbn;
      try discriminate.
    intros _. exists entries. split; [reflexivity|].
    apply two_keys_present; congruence.
Qed.

(** Any other body makes the call fail. *)
Lemma outcome_of_bad_shape (body : pyvalue) :
  ~ has_exactly_error_and_result body ->
  raises (response_table_outcome body).
Proof.
  intros Hshape.
  destruct (response_table_outcome body) as [result | e] eqn:Hout.
  - exfalso. apply Hshape. now apply outcome_Ok_shape with result.
  - auto with envelope.
Qed.

Lemma has_exactly_error_and_result_dec (body : pyvalue) :
  has_exactly_error_and_result body \/ ~ has_exactly_error_and_result body.
Proof.
  destruct (response_table_outcome body) as [result | e] eqn:Hout.
  - left. now apply outcome_Ok_shape with result.
  - destruct body as [| b | n | r | s | items | entries];
      try (right; intros (entries' & H & _); discriminate).
    destruct (Nat.eq_dec (List.length entries) 2) as [Hlen | Hlen];
      [destruct (dict_get "error" entries) as [error|] eqn:He;
       [destruct (dict_get "result" entries) as [res|] eqn:Hr|]|].
    + left. exists entries. split; [reflexivity|].
      apply two_keys_present; congruence.
    + right. intros (entries' & [= <-] & HP).
      destruct (two_keys_inv entries HP) as (? & ? & [-> | ->]);
        discriminate.
    + right. intros (entries' & [= <-] & HP).
      destruct (two_keys_inv entries HP) as (? & ? & [-> | ->]);
        discriminate.
    + right. intros (entries' & [= <-] & HP).
      destruct (two_keys_inv entries HP) as (? & ? & [-> | ->]);
        now apply Hlen.
Qed.

(** In an envelope of the right shape a non-null [error] is what the
    failure carries. *)
Lemma outcome_of_remote_error (body error : pyvalue) :
  has_exactly_error_and_result body ->
  field "error" body = Some error -> error <> PyNone ->
  response_table_outcome body = Raise (PyExc "Exception" error).
Proof.
  intros Hshape He Hnn.
  destruct (outcome_of_two_fields body Hshape)
    as (error' & result & He' & _ & ->).
  rewrite He in He'. injection He' as <-.
  destruct error; congruence.
Qed.

(** A non-null [error] never comes with a result. *)
Lemma outcome_of_non_null_error (body error : pyvalue) :
  field "error" body = Some error -> error <> PyNone ->
  raises (response_table_outcome body).
Proof.
  intros He Hnn.
  destruct (has_exactly_error_and_result_dec body) as [Hshape | Hshape].
  - rewrite (outcome_of_remote_error body error Hshape He Hnn).
    auto with envelope.
  - now apply outcome_of_bad_shape.
Qed.

(** C2: the call fails exactly when the decoded body is not an object with
    the two fields [error] and [result] and no other, or its [error] is not
    null.  A body with a non-null [error] never gives a result, and in an
    envelope of the right shape the failure carries that [error] unchanged;
    whenever the call does not fail it returns the value of [result]. *)
Theorem response_table_outcome_spec (body : pyvalue) :
  (raises (response_table_outcome body)
   <-> ~ has_exactly_error_and_result body \/ error_is_non_null body)
  /\ (forall error,
        field "error" body = Some error -> error <> PyNone ->
        raises (response_table_outcome body)
        /\ (has_exactly_error_and_result body ->
            response_table_outcome body = Raise (PyExc "Exception" error)))
  /\ (~ raises (response_table_outcome body) ->
      exists result,
        field "result" body = Some result
        /\ response_table_outcome body = Ok result).
Proof.
  split; [split|split].
  - intros Hraises.
    destruct (has_exactly_error_and_result_dec body) as [Hshape | Hshape];
      [right | now left].
    destruct (outcome_of_two_fields body Hshape)
      as (error & result & He & _ & Hout).
    exists error. split; [assumption|]. intros ->.
    rewrite Hout in Hraises. now apply not_raises_Ok in Hraises.
  - intros [Hshape | (error & He & Hnn)].
    + now apply outcome_of_bad_shape.
    + now apply outcome_of_non_null_error with error.
  - intros error He Hnn.
    split; [now apply outcome_of_non_null_error with error|].
    intros Hshape. now apply outcome_of_remote_error.
  - intros Hok.
    destruct (response_table_outcome body) as [result | e] eqn:Hout.
    + apply outcome_Ok_shape in Hout as Hshape.
      destruct (outcome_of_two_fields body Hshape)
        as (error & result' & He & Hr & Hout').
      exists result. split; [|reflexivity].
      rewrite Hout in Hout'. destruct error; try discriminate.
      injection Hout' as ->. assumption.
    + exfalso. apply Hok. auto with envelope.
Qed.

(** ** The request envelope *)

Lemma append_assoc (a b c : string) : (a ++ b) ++ c = a ++ b ++ c.
Proof. induction a as [|x a IH]; cbn; [reflexivity | now rewrite IH]. Qed.

(** The text that is sent for [action] and [params]. *)
Lemma request_text (action : string) (params : list (string * pyvalue)) :
  get_anki_connect_request action params
  = request_head action ++ ", " ++ quoted "version" ++ ": 6, "
    ++ quoted "params" ++ ": " ++ Json.dumps (PyDict params) ++ "}".
Proof.
  unfold get_anki_connect_request, request, request_head.
  change (Json.dumps (PyDict params)) with
    ("{" ++ join ", " (map (fun kv => Json.encode_basestring (fst kv) ++ ": "
                                       ++ Json.dumps (snd kv)) params) ++ "}").
  cbn -[Json.encode_basestring].
  unfold Json.encode_basestring. cbn.
  repeat (rewrite !append_assoc; cbn). reflexivity.
Qed.

(** ** The status of a response *)

Lemma append_not_empty (a b : string) : b <> "" -> a ++ b <> "".
Proof. destruct a; cbn; [tauto | discriminate]. Qed.

Lemma http_error_msg_not_empty (r : response) :
  error_status r -> http_error_msg r <> "".
Proof.
  unfold error_status, http_error_msg. intros H.
  destruct (Z.leb_spec 400 (status_code r)); [|lia].
  destruct (Z.ltb_spec (status_code r) 500); cbn [andb].
  - apply append_not_empty. discriminate.
  - destruct (Z.leb_spec 500 (status_code r)); [|lia].
    destruct (Z.ltb_spec (status_code r) 600); [|lia]. cbn [andb].
    apply append_not_empty. discriminate.
Qed.

Lemma raise_for_status_error (r : response) :
  error_status r ->
  raise_for_status r = Raise (PyExc "HTTPError" (PyStr (http_error_msg r))).
Proof.
  intros H. apply http_error_msg_not_empty in H. unfold raise_for_status.
  destruct (http_error_msg r); [contradiction | reflexivity].
Qed.

Lemma raise_for_status_ok (r : response) :
  ~ error_status r -> raise_for_status r = Ok tt.
Proof.
  unfold error_status, raise_for_status, http_error_msg. intros H.
  destruct (Z.leb_spec 400 (status_code r));
    destruct (Z.ltb_spec (status_code r) 500);
    destruct (Z.leb_spec 500 (status_code r));
    destruct (Z.ltb_spec (status_code r) 600);
    cbn [andb]; try reflexivity; lia.
Qed.

(** ** Calls to AnkiConnect *)

Section Calls.

Variable E : Environment.

Lemma invoke_anki_connect_eq (url : pyvalue) (action : string)
  (params : list (string * pyvalue)) (t : trace) :
  invoke_anki_connect E url action params t
  = (invoke_result E t url action params,
     (t ++ invoke_events E t url action params)%list).
Proof.
  unfold invoke_anki_connect, invoke_result, invoke_events,
    transport_diagnostic, bind, post, lift, print, ret.
  destruct (requests_post E t url (get_anki_connect_request action params))
    as [r | e]; cbn [bind_result]; [|reflexivity].
  destruct (raise_for_status r) as [u | e]; cbn [bind_result].
  - destruct (json_loads E (text r)); reflexivity.
  - rewrite <- app_assoc. destruct (json_loads E (text r)); reflexivity.
Qed.

(** C5: whatever the action and the parameters, the request that is
    serialized has the three keys [action], [version] and [params] and no
    other, its [version] is the integer 6, the text is that of an object
    with these three members, and this text is the body of the POST that
    [invoke_anki_connect] sends. *)
Theorem get_anki_connect_request_envelope
  (action : string) (params : list (string * pyvalue))
  (url : pyvalue) (t : trace) :
  get_anki_connect_request action params
  = Json.dumps (request action params)
  /\ keys (request action params) = ["action"; "version"; "params"]
  /\ py_getitem (request action params) "action" = Ok (PyStr action)
  /\ py_getitem (request action params) "version" = Ok (PyInt 6)
  /\ py_getitem (request action params) "params" = Ok (PyDict params)
  /\ get_anki_connect_request action params
     = "{" ++ quoted "action" ++ ": " ++ Json.encode_basestring action
       ++ ", " ++ quoted "version" ++ ": 6, "
       ++ quoted "params" ++ ": " ++ Json.dumps (PyDict params) ++ "}"
  /\ exists answer diagnostic,
       snd (invoke_anki_connect E url action params t)
       = (t ++ HttpPost url (get_anki_connect_request action params) answer
               :: diagnostic)%list.
Proof.
  repeat split; try reflexivity.
  - rewrite request_text. unfold request_head.
    now rewrite !append_assoc.
  - rewrite invoke_anki_connect_eq. unfold invoke_events.
    now eexists _, _.
Qed.

(** C9: when the POST is answered with an error status,
    [invoke_anki_connect] prints the transport error and goes on: it
    decodes the body, and its result, returned or raised, is what the
    checks make of the decoded body.  The status adds one printed line to
    what the call does, and nothing else. *)
Theorem invoke_anki_connect_error_status
  (url : pyvalue) (action : string) (params : list (string * pyvalue))
  (t : trace) (r : response) :
  requests_post E t url (get_anki_connect_request action params) = Ok r ->
  error_status r ->
  invoke_anki_connect E url action params t
  = (let? response_table := json_loads E (text r) in
     response_table_outcome response_table,
     (t ++ [HttpPost url (get_anki_connect_request action params) (Ok r);
            Print ("Error getting response from AnkiConnect: "
                   ++ http_error_msg r)])%list)
  /\ (forall response_table,
        json_loads E (text r) = Ok response_table ->
        fst (invoke_anki_connect E url action params t)
        = response_table_outcome response_table).
Proof.
  intros Hpost Hstatus. rewrite invoke_anki_connect_eq.
  unfold invoke_result, invoke_events, transport_diagnostic.
  rewrite Hpost, (raise_for_status_error r Hstatus).
  cbn [bind_result exn_str py_str]. split; [reflexivity|].
  intros response_table ->. reflexivity.
Qed.

End Calls.

Lemma count_app (f : event -> bool) (t1 t2 : trace) :
  count f (t1 ++ t2)%list = (count f t1 + count f t2)%nat.
Proof. unfold count. now rewrite filter_app, length_app. Qed.

Lemma is_call_guiBrowse_addNote
  (url : pyvalue) (params : list (string * pyvalue))
  (answer : result response) :
  is_call "guiBrowse"
    (HttpPost url (get_anki_connect_request "addNote" params) answer)
  = false.
Proof. cbn [is_call]. rewrite request_text. reflexivity. Qed.

Lemma is_call_guiBrowse_guiBrowse
  (url : pyvalue) (params : list (string * pyvalue))
  (answer : result response) :
  is_call "guiBrowse"
    (HttpPost url (get_anki_connect_request "guiBrowse" params) answer)
  = true.
Proof. cbn [is_call]. rewrite request_text. reflexivity. Qed.

Section Submission.

Variable E : Environment.

Lemma add_synopsis_anki_note_eq (synopsis module link : string)
  (t : trace) :
  add_synopsis_anki_note E synopsis module link t
  = let t1 := (t ++ [ReadConfig (load_config E t)])%list in
    match (let? config := load_config E t in config_values config) with
    | Raise e => (Raise e, t1)
    | Ok (anki_connect_url, anki_deck, anki_model, hint, tags) =>
        invoke_anki_connect E anki_connect_url "addNote"
          [("note", synopsis_note anki_deck anki_model hint tags
                      synopsis module link)] t1
    end.
Proof.
  unfold add_synopsis_anki_note, add_anki_note, config_values,
    synopsis_note, bind, get_config, lift.
  destruct (load_config E t) as [config | e]; cbn [bind_result];
    [|reflexivity].
  destruct (py_getitem config "anki-connect-url"); cbn [bind_result];
    [|reflexivity].
  destruct (py_getitem config "anki-deck"); cbn [bind_result];
    [|reflexivity].
  destruct (py_getitem config "anki-model"); cbn [bind_result];
    [|reflexivity].
  destruct (py_getitem config "hint-synopsis"); cbn [bind_result];
    [|reflexivity].
  destruct (py_getitem config "tags-synopsis"); cbn [bind_result];
    reflexivity.
Qed.

(** A module whose page is fetched and parsed, whose synopsis is
    extracted and whose configuration is complete gets its note
    submitted. *)
Lemma create_synopsis_note_submits
  (module : string) (python_version : Z) (t : trace)
  (page : response) (doc : soup) (synopsis : string)
  (config anki_connect_url anki_deck anki_model hint tags : pyvalue) :
  let link := docs_url module python_version in
  let t1 := (t ++ [HttpGet link (Ok page)])%list in
  requests_get E t link = Ok page ->
  ~ error_status page ->
  BeautifulSoup E (html_file page) = Ok doc ->
  get_synopsis (decode E) doc = Ok synopsis ->
  load_config E t1 = Ok config ->
  config_values config
  = Ok (anki_connect_url, anki_deck, anki_model, hint, tags) ->
  create_synopsis_note E module python_version t
  = invoke_anki_connect E anki_connect_url "addNote"
      [("note", synopsis_note anki_deck anki_model hint tags
                  synopsis module link)]
      (t ++ [HttpGet link (Ok page); ReadConfig (Ok config)])%list.
Proof.
  intros link t1 Hget Hstatus Hsoup Hsyn Hconfig Hvalues.
  unfold create_synopsis_note, bind, get. fold link. rewrite Hget.
  rewrite (raise_for_status_ok page Hstatus).
  unfold lift. rewrite Hsoup, Hsyn. rewrite add_synopsis_anki_note_eq.
  fold t1. rewrite Hconfig. cbn [bind_result]. rewrite Hvalues.
  cbv zeta. unfold t1. now rewrite <- app_assoc.
Qed.

End Submission.

(** ** The orchestrator *)

Lemma count_cons (f : event -> bool) (e : event) (t : trace) :
  count f (e :: t) = ((if f e then 1 else 0) + count f t)%nat.
Proof. unfold count. cbn [filter]. now destruct (f e). Qed.

Lemma count_nil (f : event -> bool) : count f [] = 0%nat.
Proof. reflexivity. Qed.

Section Orchestrator.

Variable E : Environment.

(** One turn of the loop of [main]. *)
Lemma main_loop_cons (module : string) (rest : list string)
  (python_version : Z) (note_ids : list pyvalue) (t : trace) :
  main_loop E (module :: rest) python_version note_ids t
  = match create_synopsis_note E module python_version t with
    | (Raise e, t') => (Raise e, t')
    | (Ok PyNone, t') => main_loop E rest python_version note_ids t'
    | (Ok note_id, t') =>
        main_loop E rest python_version (note_ids ++ [note_id])%list
          (t' ++ [Print ("Added synopsis note for " ++ module ++ ": "
                         ++ py_str E note_id)])%list
    end.
Proof.
  cbn [main_loop]. unfold bind.
  destruct (create_synopsis_note E module python_version t)
    as [[note_id | e] t']; [destruct note_id|]; reflexivity.
Qed.

Lemma main_loop_app (done rest : list string) (python_version : Z)
  (note_ids : list pyvalue) (t : trace) :
  main_loop E (done ++ rest)%list python_version note_ids t
  = match main_loop E done python_version note_ids t with
    | (Ok note_ids', t') => main_loop E rest python_version note_ids' t'
    | (Raise e, t') => (Raise e, t')
    end.
Proof.
  revert note_ids t. induction done as [|module done IH];
    intros note_ids t; [reflexivity|].
  rewrite <- app_comm_cons, !main_loop_cons.
  destruct (create_synopsis_note E module python_version t)
    as [[note_id | e] t']; [destruct note_id|]; now rewrite ?IH.
Qed.

Lemma main_eq (modules : list string) (python_version : Z) (t : trace) :
  main E modules python_version t
  = match main_loop E modules python_version [] t with
    | (Ok note_ids, t1) =>
        match gui_browse_notes E note_ids t1 with
        | (Ok _, t2) => (Ok 0%Z, t2)
        | (Raise e, t2) => (Raise e, t2)
        end
    | (Raise e, t1) => (Raise e, t1)
    end.
Proof.
  unfold main, bind, ret.
  destruct (main_loop E modules python_version [] t) as [[ids | e] t1];
    [|reflexivity].
  destruct (gui_browse_notes E ids t1) as [[v | e] t2]; reflexivity.
Qed.

Lemma gui_browse_notes_eq (note_ids : list pyvalue) (t : trace) :
  gui_browse_notes E note_ids t
  = let t1 := (t ++ [ReadConfig (load_config E t)])%list in
    match (let? config := load_config E t in
           py_getitem config "anki-connect-url") with
    | Raise e => (Raise e, t1)
    | Ok anki_connect_url =>
        invoke_anki_connect E anki_connect_url "guiBrowse"
          [("query",
            PyStr ("nid:" ++ join "," (map (py_str E) note_ids)))] t1
    end.
Proof.
  unfold gui_browse_notes, bind, get_config, lift.
  destruct (load_config E t) as [config | e]; cbn [bind_result];
    [|reflexivity].
  destruct (py_getitem config "anki-connect-url"); reflexivity.
Qed.

(** What one call adds to the counts. *)
Lemma invoke_events_counts (t : trace) (url : pyvalue) (action : string)
  (params : list (string * pyvalue)) :
  count is_fetch (invoke_events E t url action params) = 0%nat
  /\ count is_good_fetch (invoke_events E t url action params) = 0%nat
  /\ count is_config_read (invoke_events E t url action params) = 0%nat
  /\ count (is_call "guiBrowse") (invoke_events E t url action params)
     = if is_call "guiBrowse"
            (HttpPost url (get_anki_connect_request action params)
               (requests_post E t url
                  (get_anki_connect_request action params)))
       then 1%nat else 0%nat.
Proof.
  unfold invoke_events, transport_diagnostic.
  set (data := get_anki_connect_request action params).
  destruct (requests_post E t url data) as [r | e];
    [destruct (raise_for_status r)|];
    rewrite ?count_cons, ?count_nil; cbn [is_fetch is_good_fetch
      is_config_read]; repeat split; try reflexivity;
    cbn [is_call]; destruct (String.prefix _ data); reflexivity.
Qed.

(** What the processing of one module adds to the trace. *)
Lemma create_synopsis_note_events (module : string) (python_version : Z)
  (t : trace) :
  exists evs,
    snd (create_synopsis_note E module python_version t) = (t ++ evs)%list
    /\ count (is_call "guiBrowse") evs = 0%nat
    /\ count is_fetch evs = 1%nat
    /\ (forall note_id,
          fst (create_synopsis_note E module python_version t)
          = Ok note_id ->
          count is_config_read evs = count is_good_fetch evs).
Proof.
  unfold create_synopsis_note, bind, get, lift, print, ret.
  set (link := docs_url module python_version).
  destruct (requests_get E t link) as [page | e] eqn:Hget.
  2:{ exists [HttpGet link (Raise e)]. repeat split; discriminate. }
  destruct (raise_for_status page) as [u | e] eqn:Hstatus.
  2:{ eexists [HttpGet link (Ok page); Print _]. cbn [fst snd].
      rewrite <- app_assoc. repeat split.
      intros ? _. rewrite !count_cons. cbn [is_config_read is_good_fetch].
      now rewrite Hstatus. }
  assert (Hgood : is_good_fetch (HttpGet link (Ok page)) = true)
    by (cbn; now rewrite Hstatus).
  destruct (BeautifulSoup E (html_file page)) as [doc | e].
  2:{ exists [HttpGet link (Ok page)]. repeat split; discriminate. }
  destruct (get_synopsis (decode E) doc) as [synopsis | e].
  2:{ exists [HttpGet link (Ok page)]. repeat split; discriminate. }
  rewrite add_synopsis_anki_note_eq. cbv zeta.
  set (t1 := (t ++ [HttpGet link (Ok page)])%list).
  destruct (load_config E t1) as [config | e]; cbn [bind_result].
  2:{ exists [HttpGet link (Ok page); ReadConfig (Raise e)]. cbn [fst snd].
      unfold t1. rewrite <- app_assoc. repeat split; discriminate. }
  destruct (config_values config) as [[[[[url deck] model] hint] tags] | e].
  2:{ exists [HttpGet link (Ok page); ReadConfig (Ok config)].
      cbn [fst snd].
      unfold t1. rewrite <- app_assoc. repeat split; discriminate. }
  rewrite invoke_anki_connect_eq. cbn [fst snd].
  set (params := [("note", _)]).
  set (t2 := (t1 ++ [ReadConfig (Ok config)])%list).
  destruct (invoke_events_counts t2 url "addNote" params)
    as (Hf & Hg & Hc & Hb).
  rewrite is_call_guiBrowse_addNote in Hb.
  exists ([HttpGet link (Ok page); ReadConfig (Ok config)]
          ++ invoke_events E t2 url "addNote" params)%list.
  split; [unfold t2, t1; now rewrite <- !app_assoc|].
  rewrite !count_app, Hf, Hg, Hc, Hb, !count_cons, Hgood.
  repeat split.
Qed.

End Orchestrator.

(** ** Runs *)

Lemma is_call_addNote_addNote
  (url : pyvalue) (params : list (string * pyvalue))
  (answer : result response) :
  is_call "addNote"
    (HttpPost url (get_anki_connect_request "addNote" params) answer)
  = true.
Proof. cbn [is_call]. rewrite request_text. reflexivity. Qed.

Section Runs.

Variable E : Environment.

Lemma created_ids_app (t1 t2 : trace) :
  created_ids E (t1 ++ t2)%list
  = (created_ids E t1 ++ created_ids E t2)%list.
Proof. apply flat_map_app. Qed.

(** The identifier that the processing of one module returns is the one
    its call of [addNote] created, if any. *)
Lemma create_synopsis_note_created (module : string) (python_version : Z)
  (t t' : trace) (note_id : pyvalue) :
  create_synopsis_note E module python_version t = (Ok note_id, t') ->
  exists evs,
    t' = (t ++ evs)%list
    /\ created_ids E evs
       = match note_id with PyNone => [] | _ => [note_id] end.
Proof.
  unfold create_synopsis_note, bind, get, lift, print, ret.
  set (link := docs_url module python_version).
  destruct (requests_get E t link) as [page | e]; [|discriminate].
  destruct (raise_for_status page) as [u | e].
  2:{ intros [= <- <-]. eexists [_; _]. rewrite <- app_assoc.
      split; reflexivity. }
  destruct (BeautifulSoup E (html_file page)) as [doc | e]; [|discriminate].
  destruct (get_synopsis (decode E) doc) as [synopsis | e];
    [|discriminate].
  rewrite add_synopsis_anki_note_eq. cbv zeta.
  set (t1 := (t ++ [HttpGet link (Ok page)])%list).
  destruct (load_config E t1) as [config | e]; cbn [bind_result];
    [|discriminate].
  destruct (config_values config)
    as [[[[[url deck] model] hint] tags] | e]; [|discriminate].
  rewrite invoke_anki_connect_eq.
  set (params := [("note", _)]).
  set (t2 := (t1 ++ [ReadConfig (Ok config)])%list).
  intros [= Hres <-].
  exists ([HttpGet link (Ok page); ReadConfig (Ok config)]
          ++ invoke_events E t2 url "addNote" params)%list.
  split; [unfold t2, t1; now rewrite <- !app_assoc|].
  revert Hres. unfold invoke_result, invoke_events, transport_diagnostic.
  set (data := get_anki_connect_request "addNote" params).
  destruct (requests_post E t2 url data) as [r | e]; cbn [bind_result];
    [|discriminate].
  intros Hres. unfold created_ids. cbn [flat_map created_by app].
  unfold data at 1. rewrite is_call_addNote_addNote, Hres.
  destruct (raise_for_status r); destruct note_id; reflexivity.
Qed.

(** What the loop adds to the trace, and what it returns. *)
Lemma main_loop_events (modules : list string) (python_version : Z)
  (note_ids : list pyvalue) (t : trace) :
  exists evs,
    snd (main_loop E modules python_version note_ids t) = (t ++ evs)%list
    /\ count (is_call "guiBrowse") evs = 0%nat
    /\ (forall note_ids',
          fst (main_loop E modules python_version note_ids t)
          = Ok note_ids' ->
          count is_config_read evs = count is_good_fetch evs
          /\ count is_fetch evs = List.length modules
          /\ note_ids' = (note_ids ++ created_ids E evs)%list).
Proof.
  revert note_ids t. induction modules as [|module rest IH];
    intros note_ids t.
  - exists []. cbn. rewrite !app_nil_r.
    split; [reflexivity|]. split; [reflexivity|].
    intros ? [= <-]. repeat split.
  - rewrite main_loop_cons.
    destruct (create_synopsis_note_events E module python_version t)
      as (evs & Hsnd & Hbrowse & Hfetch & Hreads).
    destruct (create_synopsis_note E module python_version t)
      as [[note_id | e] t'] eqn:Hcreate; cbn [fst snd] in *; subst t'.
    2:{ exists evs. repeat split; try assumption; discriminate. }
    specialize (Hreads note_id eq_refl).
    destruct (create_synopsis_note_created _ _ _ _ _ Hcreate)
      as (evs' & Heq & Hcreated).
    apply app_inv_head in Heq. subst evs'.
    set (line := Print ("Added synopsis note for " ++ module ++ ": "
                        ++ py_str E note_id)).
    assert (Hskip : forall ids1 t1,
               (exists evs1, t1 = (t ++ evs ++ evs1)%list
                 /\ count (is_call "guiBrowse") evs1 = 0%nat
                 /\ count is_config_read evs1 = 0%nat
                 /\ count is_good_fetch evs1 = 0%nat
                 /\ count is_fetch evs1 = 0%nat
                 /\ created_ids E evs1 = []
                 /\ ids1 = (note_ids ++ created_ids E evs)%list) ->
               exists evs0,
                 snd (main_loop E rest python_version ids1 t1)
                 = (t ++ evs0)%list
                 /\ count (is_call "guiBrowse") evs0 = 0%nat
                 /\ (forall note_ids',
                       fst (main_loop E rest python_version ids1 t1)
                       = Ok note_ids' ->
                       count is_config_read evs0 = count is_good_fetch evs0
                       /\ count is_fetch evs0 = List.length (module :: rest)
                       /\ note_ids'
                          = (note_ids ++ created_ids E evs0)%list)).
    { intros ids1 t1 (evs1 & -> & Hb1 & Hc1 & Hg1 & Hf1 & Hcr1 & ->).
      destruct (IH (note_ids ++ created_ids E evs)%list
                  (t ++ evs ++ evs1)%list)
        as (evs2 & Hsnd2 & Hb2 & Hok2).
      exists (evs ++ evs1 ++ evs2)%list.
      split; [rewrite Hsnd2; now rewrite <- !app_assoc|].
      split; [rewrite !count_app; lia|].
      intros ids' Hfst. destruct (Hok2 ids' Hfst) as (Hr2 & Hf2 & Hids2).
      rewrite !count_app, !created_ids_app, Hcr1. cbn [app List.length].
      repeat split; try lia.
      now rewrite Hids2, <- app_assoc. }
    destruct note_id; apply Hskip;
      first [ exists []; rewrite !app_nil_r, Hcreated, ?app_nil_r;
              repeat split; reflexivity
            | exists [line]; rewrite Hcreated, <- app_assoc;
              repeat split; reflexivity ].
Qed.

End Runs.

(** * The claims about a run *)

Section Claims.

Variable E : Environment.

(** C3, as the program has it: when the fetch of a module's page is
    answered with an error status (400 to 599), a diagnostic is printed,
    the module is skipped without any request to AnkiConnect and without
    touching the accumulator, and the loop goes on with the next module.
    (A fetch that fails in transport raises in [requests.get] itself;
    that exception is not caught.) *)
Theorem error_status_skips_module
  (module : string) (rest : list string) (python_version : Z)
  (note_ids : list pyvalue) (t : trace) (page : response) :
  let link := docs_url module python_version in
  let t' := (t ++ [HttpGet link (Ok page);
                   Print ("Failed to get docs for " ++ module ++ ": "
                          ++ http_error_msg page)])%list in
  requests_get E t link = Ok page ->
  error_status page ->
  create_synopsis_note E module python_version t = (Ok PyNone, t')
  /\ main_loop E (module :: rest) python_version note_ids t
     = main_loop E rest python_version note_ids t'.
Proof.
  intros link t' Hget Hstatus.
  assert (Hcreate : create_synopsis_note E module python_version t
                    = (Ok PyNone, t')).
  { unfold create_synopsis_note, bind, get, print, ret. fold link.
    rewrite Hget, (raise_for_status_error page Hstatus).
    cbn [exn_str py_str]. unfold t'. now rewrite <- app_assoc. }
  split; [assumption|]. now rewrite main_loop_cons, Hcreate.
Qed.

(** C8: the note that is submitted for a module.  When the page is
    fetched and parsed and the synopsis extracted, and the configuration
    has its five values, the one request that follows is an [addNote]
    whose note has the configuration's deck and model, the tags that
    [tags-synopsis] gives, as they are, and the six fields [Front] (the
    synopsis), [Back] (the module name), [Hint] (the configuration's
    [hint-synopsis]), [Back Extra] (empty), [Links] (the address of the
    page) and [Reverse] (empty). *)
Theorem submitted_note
  (module : string) (python_version : Z) (t : trace)
  (page : response) (doc : soup) (synopsis : string)
  (config anki_connect_url anki_deck anki_model hint tags : pyvalue) :
  let link := docs_url module python_version in
  let fields := PyDict [("Front", PyStr synopsis);
                        ("Back", PyStr module);
                        ("Hint", hint);
                        ("Back Extra", PyStr "");
                        ("Links", PyStr link);
                        ("Reverse", PyStr "")] in
  let note := PyDict [("deckName", anki_deck);
                      ("modelName", anki_model);
                      ("fields", fields);
                      ("tags", tags)] in
  let data := get_anki_connect_request "addNote" [("note", note)] in
  let t1 := (t ++ [HttpGet link (Ok page); ReadConfig (Ok config)])%list in
  let answer := requests_post E t1 anki_connect_url data in
  requests_get E t link = Ok page ->
  ~ error_status page ->
  BeautifulSoup E (html_file page) = Ok doc ->
  get_synopsis (decode E) doc = Ok synopsis ->
  load_config E (t ++ [HttpGet link (Ok page)])%list = Ok config ->
  py_getitem config "anki-connect-url" = Ok anki_connect_url ->
  py_getitem config "anki-deck" = Ok anki_deck ->
  py_getitem config "anki-model" = Ok anki_model ->
  py_getitem config "hint-synopsis" = Ok hint ->
  py_getitem config "tags-synopsis" = Ok tags ->
  snd (create_synopsis_note E module python_version t)
  = (t1 ++ [HttpPost anki_connect_url data answer]
        ++ match answer with
           | Ok r => transport_diagnostic E r
           | Raise _ => []
           end)%list
  /\ py_getitem note "tags" = Ok tags
  /\ py_getitem note "fields" = Ok fields
  /\ keys fields
     = ["Front"; "Back"; "Hint"; "Back Extra"; "Links"; "Reverse"].
Proof.
  intros link fields note data t1 answer
    Hget Hstatus Hsoup Hsyn Hconfig Hurl Hdeck Hmodel Hhint Htags.
  split; [|repeat split].
  assert (Hvalues : config_values config
                    = Ok (anki_connect_url, anki_deck, anki_model,
                          hint, tags)).
  { unfold config_values. now rewrite Hurl, Hdeck, Hmodel, Hhint, Htags. }
  rewrite (create_synopsis_note_submits E module python_version t page doc
             synopsis config anki_connect_url anki_deck anki_model hint
             tags Hget Hstatus Hsoup Hsyn Hconfig Hvalues).
  rewrite invoke_anki_connect_eq. reflexivity.
Qed.

(** C6: a failed submission ends the run.  After the modules [done], the
    next module's page is fetched and parsed, its synopsis extracted and
    the configuration read; the [addNote] request is answered with a body
    that decodes to [body].  If the checks on [body] raise (a remote error
    or an envelope of the wrong shape), [main] raises the same exception
    and the trace of the whole run ends with that request: no module of
    [rest] is fetched and no [guiBrowse] is sent.  If they return an
    identifier, it is appended to the accumulator. *)
Theorem failed_submission_is_fatal
  (done rest : list string) (module : string) (python_version : Z)
  (note_ids : list pyvalue) (t : trace)
  (page : response) (doc : soup) (synopsis : string)
  (config anki_connect_url anki_deck anki_model hint tags : pyvalue)
  (reply : response) (body : pyvalue) :
  let link := docs_url module python_version in
  let data := get_anki_connect_request "addNote"
                [("note", synopsis_note anki_deck anki_model hint tags
                            synopsis module link)] in
  let t1 := (t ++ [HttpGet link (Ok page); ReadConfig (Ok config)])%list in
  let t2 := (t1 ++ [HttpPost anki_connect_url data (Ok reply)]
                ++ transport_diagnostic E reply)%list in
  main_loop E done python_version [] [] = (Ok note_ids, t) ->
  requests_get E t link = Ok page ->
  ~ error_status page ->
  BeautifulSoup E (html_file page) = Ok doc ->
  get_synopsis (decode E) doc = Ok synopsis ->
  load_config E (t ++ [HttpGet link (Ok page)])%list = Ok config ->
  config_values config
  = Ok (anki_connect_url, anki_deck, anki_model, hint, tags) ->
  requests_post E t1 anki_connect_url data = Ok reply ->
  json_loads E (text reply) = Ok body ->
  (forall e,
      response_table_outcome body = Raise e ->
      main E (done ++ module :: rest)%list python_version [] = (Raise e, t2)
      /\ count (is_call "guiBrowse") t2 = 0%nat
      /\ count is_fetch t2 = S (List.length done))
  /\ (forall note_id,
        response_table_outcome body = Ok note_id ->
        note_id <> PyNone ->
        main_loop E (done ++ [module])%list python_version [] []
        = (Ok (note_ids ++ [note_id])%list,
           (t2 ++ [Print ("Added synopsis note for " ++ module ++ ": "
                          ++ py_str E note_id)])%list))
  /\ (response_table_outcome body = Ok PyNone ->
      main_loop E (done ++ [module])%list python_version [] []
      = (Ok note_ids, t2)).
Proof.
  intros link data t1 t2 Hloop Hget Hstatus Hsoup Hsyn Hconfig Hvalues
    Hpost Hbody.
  assert (Hcreate : create_synopsis_note E module python_version t
                    = (response_table_outcome body, t2)).
  { unfold t2, t1, data, link.
    rewrite (create_synopsis_note_submits E module python_version t page
               doc synopsis config anki_connect_url anki_deck anki_model
               hint tags Hget Hstatus Hsoup Hsyn Hconfig Hvalues).
    rewrite invoke_anki_connect_eq. unfold invoke_result, invoke_events.
    fold link. fold data. fold t1. rewrite Hpost. cbn [bind_result].
    now rewrite Hbody. }
  split; [|split].
  - intros e Hraise. rewrite Hraise in Hcreate.
    split; [|split].
    + rewrite main_eq, main_loop_app, Hloop, main_loop_cons, Hcreate.
      reflexivity.
    + assert (Hrun : snd (main_loop E (done ++ [module])%list
                            python_version [] []) = t2).
      { rewrite main_loop_app, Hloop, main_loop_cons, Hcreate.
        reflexivity. }
      destruct (main_loop_events E (done ++ [module])%list
                  python_version [] []) as (evs & Hsnd & Hbrowse & _).
      rewrite Hrun in Hsnd. cbn [app] in Hsnd. now subst evs.
    + destruct (main_loop_events E done python_version [] [])
        as (evs & Hsnd & _ & Hok).
      rewrite Hloop in Hsnd, Hok. cbn [fst snd app] in Hsnd, Hok.
      subst evs. destruct (Hok note_ids eq_refl) as (_ & Hfetch & _).
      unfold t2, t1, transport_diagnostic.
      rewrite !count_app, Hfetch.
      destruct (raise_for_status reply); cbn; lia.
  - intros note_id Hok Hnn. rewrite Hok in Hcreate.
    rewrite main_loop_app, Hloop, main_loop_cons, Hcreate.
    destruct note_id; try reflexivity. congruence.
  - intros Hnone. rewrite Hnone in Hcreate.
    now rewrite main_loop_app, Hloop, main_loop_cons, Hcreate.
Qed.

(** C7, as the program has it: in a run that comes to its end, the
    configuration file is read once for every module whose page was
    fetched without an error status, when its note is added, and once
    more for browsing; and every module was fetched once. *)
Theorem config_reads_of_a_run
  (modules : list string) (python_version : Z) (status : Z) (t : trace) :
  main E modules python_version [] = (Ok status, t) ->
  count is_config_read t = S (count is_good_fetch t)
  /\ count is_fetch t = List.length modules.
Proof.
  rewrite main_eq.
  destruct (main_loop_events E modules python_version [] [])
    as (evs & Hsnd & _ & Hok).
  destruct (main_loop E modules python_version [] [])
    as [[note_ids | e] t1]; [|discriminate].
  cbn [fst snd app] in Hsnd, Hok. subst t1.
  destruct (Hok note_ids eq_refl) as (Hreads & Hfetch & _).
  rewrite gui_browse_notes_eq. cbv zeta.
  destruct (load_config E evs) as [config | e]; cbn [bind_result];
    [|discriminate].
  destruct (py_getitem config "anki-connect-url") as [url | e];
    [|discriminate].
  rewrite invoke_anki_connect_eq.
  set (params := [("query", _)]).
  set (t2 := (evs ++ [ReadConfig (Ok config)])%list).
  destruct (invoke_events_counts E t2 url "guiBrowse" params)
    as (Hf & Hg & Hc & _).
  destruct (invoke_result E t2 url "guiBrowse" params); [|discriminate].
  intros [= _ <-].
  rewrite !count_app, Hf, Hg, Hc. unfold t2.
  rewrite !count_app, !count_cons, !count_nil.
  cbn [is_config_read is_good_fetch is_fetch]. lia.
Qed.

(** C4, as the program has it: when the loop has gone through all the
    modules and the configuration read for browsing has its
    [anki-connect-url], the run ends with one [guiBrowse] request, the only
    one of the run, sent after every module was fetched; its query is
    [nid:] followed by the identifiers of the accumulator, which are those
    the [addNote] calls created, in the order of creation, with commas
    between them.  With an empty accumulator the query is [nid:]. *)
Theorem one_guiBrowse_call
  (modules : list string) (python_version : Z)
  (note_ids : list pyvalue) (t1 : trace)
  (config anki_connect_url : pyvalue) :
  let query := "nid:" ++ join "," (map (py_str E) note_ids) in
  let data := get_anki_connect_request "guiBrowse"
                [("query", PyStr query)] in
  let t2 := (t1 ++ [ReadConfig (Ok config)])%list in
  let answer := requests_post E t2 anki_connect_url data in
  main_loop E modules python_version [] [] = (Ok note_ids, t1) ->
  load_config E t1 = Ok config ->
  py_getitem config "anki-connect-url" = Ok anki_connect_url ->
  snd (main E modules python_version [])
  = (t2 ++ [HttpPost anki_connect_url data answer]
        ++ match answer with
           | Ok r => transport_diagnostic E r
           | Raise _ => []
           end)%list
  /\ count (is_call "guiBrowse") t2 = 0%nat
  /\ count (is_call "guiBrowse") (snd (main E modules python_version []))
     = 1%nat
  /\ count is_fetch t1 = List.length modules
  /\ note_ids = created_ids E t1
  /\ (note_ids = [] -> query = "nid:").
Proof.
  intros query data t2 answer Hloop Hconfig Hurl.
  destruct (main_loop_events E modules python_version [] [])
    as (evs & Hsnd & Hbrowse & Hok).
  rewrite Hloop in Hsnd, Hok. cbn [fst snd app] in Hsnd, Hok. subst evs.
  destruct (Hok note_ids eq_refl) as (_ & Hfetch & Hids).
  assert (Hmain : snd (main E modules python_version [])
                  = (t2 ++ invoke_events E t2 anki_connect_url "guiBrowse"
                             [("query", PyStr query)])%list).
  { rewrite main_eq, Hloop, gui_browse_notes_eq. cbv zeta.
    rewrite Hconfig. cbn [bind_result]. rewrite Hurl.
    rewrite invoke_anki_connect_eq. fold query. fold t2.
    now destruct (invoke_result E t2 anki_connect_url "guiBrowse"
                    [("query", PyStr query)]). }
  assert (Hbefore : count (is_call "guiBrowse") t2 = 0%nat).
  { unfold t2. rewrite count_app, Hbrowse. reflexivity. }
  destruct (invoke_events_counts E t2 anki_connect_url "guiBrowse"
              [("query", PyStr query)]) as (_ & _ & _ & Hcall).
  rewrite is_call_guiBrowse_guiBrowse in Hcall.
  repeat split; try assumption.
  - rewrite Hmain, count_app, Hbefore, Hcall. reflexivity.
  - intros Hempty. unfold query. now rewrite Hempty.
Qed.

End Claims.

(** The run of the specification: three modules, the second of which has no
    page.  Two notes are added, the second module is skipped with a
    diagnostic, and the run ends with a [guiBrowse] for the two notes. *)
Example run_of_three_modules :
  let run := main Demo.E Demo.modules 3 [] in
  fst run = Ok 0%Z
  /\ count (is_call "addNote") (snd run) = 2%nat
  /\ count (is_call "guiBrowse") (snd run) = 1%nat
  /\ created_ids Demo.E (snd run) = [PyInt 1001; PyInt 1002]
  /\ Demo.last_post_data (snd run)
     = Some (get_anki_connect_request "guiBrowse"
               [("query", PyStr "nid:1001,1002")])
  /\ Demo.printed (snd run)
     = ["Added synopsis note for ast: 1001";
        "Failed to get docs for nonexistent_module_xyz: 404 Client Error: Not Found for url: https://docs.python.org/3/library/nonexistent_module_xyz.html";
        "Added synopsis note for io: 1002"].
Proof. vm_compute. repeat split. Qed.

Example get_synopsis_example :
  get_synopsis Demo.render (Demo.page_of "ast" "Abstract Syntax Trees")
  = Ok "Abstract Syntax Trees".
Proof. reflexivity. Qed.

(** * The theorems at work in the scripted world *)

Lemma get_synopsis_few_children_witness :
  let separator := " " ++ Demo.em_dash ++ " " in
  let contents :=
    [NavigableString "ast"; NavigableString separator; NavigableString "#"] in
  let doc := [Tag "h1" [] contents] in
  find "h1" doc = Some (Tag "h1" [] contents)
  /\ String.length separator = 5%nat
  /\ get_synopsis Demo.render doc = Ok "".
Proof.
  intros separator contents doc.
  split; [reflexivity|]. split; [reflexivity|].
  destruct (get_synopsis_few_children Demo.render doc "h1" [] contents)
    as [_ Hfew]; [reflexivity|].
  apply Hfew. vm_compute. lia.
Defined.

Lemma response_table_outcome_spec_witness :
  response_table_outcome (Demo.envelope PyNone Demo.duplicate)
  = Raise (PyExc "Exception" Demo.duplicate).
Proof.
  destruct (response_table_outcome_spec
              (Demo.envelope PyNone Demo.duplicate)) as (_ & Herror & _).
  apply (Herror Demo.duplicate); [reflexivity | discriminate |].
  exists [("result", PyNone); ("error", Demo.duplicate)].
  split; [reflexivity | apply perm_swap].
Defined.

Lemma invoke_anki_connect_error_status_witness :
  error_status (Demo.first_reply 500)
  /\ fst (invoke_anki_connect Demo.E_500 Demo.anki_url "addNote" [] [])
     = Ok (PyInt 1001).
Proof.
  assert (Hstatus : error_status (Demo.first_reply 500))
    by (unfold error_status; simpl; lia).
  split; [exact Hstatus|].
  apply (proj2 (invoke_anki_connect_error_status Demo.E_500 Demo.anki_url
                  "addNote" [] [] (Demo.first_reply 500)
                  eq_refl Hstatus)
           (Demo.envelope (PyInt 1001) PyNone)).
  reflexivity.
Defined.

Lemma error_status_skips_module_witness :
  error_status Demo.missing_page
  /\ create_synopsis_note Demo.E "nonexistent_module_xyz" 3 []
     = (Ok PyNone,
        [HttpGet Demo.missing_link (Ok Demo.missing_page);
         Print ("Failed to get docs for nonexistent_module_xyz: "
                ++ http_error_msg Demo.missing_page)]).
Proof.
  assert (Hstatus : error_status Demo.missing_page)
    by (unfold error_status; simpl; lia).
  split; [exact Hstatus|].
  apply (error_status_skips_module Demo.E "nonexistent_module_xyz" ["io"] 3
           [] [] Demo.missing_page); [reflexivity | exact Hstatus].
Defined.

Lemma submitted_note_witness :
  let note :=
    PyDict [("deckName", PyStr "Python");
            ("modelName", PyStr "Basic");
            ("fields", PyDict [("Front", PyStr "Abstract Syntax Trees");
                               ("Back", PyStr "ast");
                               ("Hint", PyStr "module");
                               ("Back Extra", PyStr "");
                               ("Links", PyStr Demo.ast_link);
                               ("Reverse", PyStr "")]);
            ("tags", Demo.tags)] in
  snd (create_synopsis_note Demo.E "ast" 3 [])
  = [HttpGet Demo.ast_link (Ok Demo.ast_page);
     ReadConfig (Ok Demo.config);
     HttpPost Demo.anki_url
       (get_anki_connect_request "addNote" [("note", note)])
       (Ok (Demo.first_reply 200))].
Proof.
  assert (Hstatus : ~ error_status Demo.ast_page)
    by (unfold error_status; simpl; lia).
  apply (submitted_note Demo.E "ast" 3 [] Demo.ast_page
           (Demo.page_of "ast" "Abstract Syntax Trees")
           "Abstract Syntax Trees" Demo.config Demo.anki_url
           (PyStr "Python") (PyStr "Basic") (PyStr "module") Demo.tags);
    solve [reflexivity | exact Hstatus].
Defined.

Lemma failed_submission_is_fatal_witness :
  ~ error_status Demo.ast_page
  /\ fst (main Demo.E_duplicate ["ast"; "io"] 3 [])
     = Raise (PyExc "Exception" Demo.duplicate)
  /\ count is_fetch (snd (main Demo.E_duplicate ["ast"; "io"] 3 [])) = 1%nat
  /\ count (is_call "guiBrowse")
       (snd (main Demo.E_duplicate ["ast"; "io"] 3 [])) = 0%nat.
Proof.
  assert (Hstatus : ~ error_status Demo.ast_page)
    by (unfold error_status; simpl; lia).
  split; [exact Hstatus|].
  destruct (failed_submission_is_fatal Demo.E_duplicate [] ["io"] "ast" 3
              [] [] Demo.ast_page
              (Demo.page_of "ast" "Abstract Syntax Trees")
              "Abstract Syntax Trees" Demo.config Demo.anki_url
              (PyStr "Python") (PyStr "Basic") (PyStr "module") Demo.tags
              (Demo.first_reply 200) (Demo.envelope PyNone Demo.duplicate)
              eq_refl eq_refl Hstatus eq_refl eq_refl eq_refl eq_refl
              eq_refl eq_refl) as (Hfatal & _).
  destruct (Hfatal (PyExc "Exception" Demo.duplicate) eq_refl)
    as (Hmain & Hbrowse & Hfetch).
  change ([] ++ "ast" :: ["io"])%list with ["ast"; "io"] in Hmain.
  rewrite Hmain. repeat split; assumption.
Defined.

Lemma config_reads_of_a_run_witness :
  let t := snd (main Demo.E Demo.modules 3 []) in
  main Demo.E Demo.modules 3 [] = (Ok 0%Z, t)
  /\ count is_config_read t = S (count is_good_fetch t)
  /\ count is_fetch t = 3%nat.
Proof.
  assert (Hrun : main Demo.E Demo.modules 3 []
                 = (Ok 0%Z, snd (main Demo.E Demo.modules 3 [])))
    by (vm_compute; reflexivity).
  split; [exact Hrun|].
  exact (config_reads_of_a_run Demo.E Demo.modules 3 0 _ Hrun).
Defined.

Lemma one_guiBrowse_call_witness :
  let t1 := snd (main_loop Demo.E Demo.modules 3 [] []) in
  main_loop Demo.E Demo.modules 3 [] [] = (Ok [PyInt 1001; PyInt 1002], t1)
  /\ count (is_call "guiBrowse") (snd (main Demo.E Demo.modules 3 []))
     = 1%nat
  /\ [PyInt 1001; PyInt 1002] = created_ids Demo.E t1.
Proof.
  assert (Hloop : main_loop Demo.E Demo.modules 3 [] []
                  = (Ok [PyInt 1001; PyInt 1002],
                     snd (main_loop Demo.E Demo.modules 3 [] [])))
    by (vm_compute; reflexivity).
  split; [exact Hloop|].
  destruct (one_guiBrowse_call Demo.E Demo.modules 3
              [PyInt 1001; PyInt 1002] _ Demo.config Demo.anki_url
              Hloop eq_refl eq_refl) as (_ & _ & Hone & _ & Hids & _).
  split; assumption.
Defined.

(** * Where the program differs from what was claimed *)

(** C3 as stated does not hold: when the documentation site cannot be
    reached, [requests.get] raises, nothing catches the exception, and the
    run ends at the first module: [io] is never fetched. *)
Lemma transport_failure_aborts_the_batch :
  main Demo.E_offline ["ast"; "io"] 3 []
  = (Raise Demo.unreachable,
     [HttpGet Demo.ast_link (Raise Demo.unreachable)])
  /\ ~ fetch_failures_never_abort.
Proof.
  assert (Hrun : main Demo.E_offline ["ast"; "io"] 3 []
                 = (Raise Demo.unreachable,
                    [HttpGet Demo.ast_link (Raise Demo.unreachable)]))
    by reflexivity.
  split; [exact Hrun|].
  intros Hnever.
  apply (Hnever Demo.E_offline ["ast"; "io"] 3%Z Demo.unreachable
           [HttpGet Demo.ast_link (Raise Demo.unreachable)] Demo.ast_link
           Hrun).
  reflexivity.
Qed.

(** C7 as stated does not hold: the run of the three modules, two of which
    get a note, reads the configuration three times. *)
Lemma three_config_reads :
  fst (main Demo.E Demo.modules 3 []) = Ok 0%Z
  /\ count is_config_read (snd (main Demo.E Demo.modules 3 [])) = 3%nat
  /\ ~ two_config_reads_per_run.
Proof.
  split; [vm_compute; reflexivity|].
  split; [vm_compute; reflexivity|].
  intros Htwo.
  assert (Hrun : main Demo.E Demo.modules 3 []
                 = (Ok 0%Z, snd (main Demo.E Demo.modules 3 [])))
    by (vm_compute; reflexivity).
  apply Htwo in Hrun. revert Hrun. vm_compute. discriminate.
Qed.

(** C4 as stated does not hold: when AnkiConnect refuses the first note,
    the run ends there and sends no [guiBrowse] at all; and when every
    module has been processed (here, skipped) but the configuration cannot
    be read for browsing, no [guiBrowse] is sent either. *)
Lemma no_guiBrowse_after_a_fatal_error :
  (fst (main Demo.E_duplicate Demo.modules 3 [])
   = Raise (PyExc "Exception" Demo.duplicate)
   /\ count (is_call "guiBrowse")
        (snd (main Demo.E_duplicate Demo.modules 3 [])) = 0%nat)
  /\ (main Demo.E_no_config ["nonexistent_module_xyz"] 3 []
      = (Raise Demo.no_config,
         [HttpGet Demo.missing_link (Ok Demo.missing_page);
          Print ("Failed to get docs for nonexistent_module_xyz: "
                 ++ http_error_msg Demo.missing_page);
          ReadConfig (Raise Demo.no_config)]))
  /\ ~ every_run_browses_once.
Proof.
  split; [split; vm_compute; reflexivity|].
  split; [vm_compute; reflexivity|].
  intros Honce.
  specialize (Honce Demo.E_duplicate Demo.modules 3%Z).
  revert Honce. vm_compute. discriminate.
Qed.

(** * Further properties *)

(** ** The extractor *)

Lemma find_in_None (name : string) :
  forall e : page_element,
    find_in name e = None <-> has_element name e = false.
Proof.
  fix IH 1. intros [n attrs contents | txt]; cbn [find_in has_element].
  - destruct (String.eqb n name); cbn [orb]; [split; discriminate|].
    induction contents as [|c rest IHrest]; cbn [existsb];
      [split; reflexivity|].
    destruct (IH c) as [Hc1 Hc2].
    destruct (find_in name c) as [hit|].
    + destruct (has_element name c); cbn [orb]; [split; discriminate|].
      specialize (Hc2 eq_refl). discriminate.
    + now rewrite (Hc1 eq_refl).
  - split; reflexivity.
Qed.

Lemma find_None (name : string) (doc : soup) :
  find name doc = None <-> doc_has_element name doc = false.
Proof.
  unfold doc_has_element.
  induction doc as [|e rest IH]; cbn [find existsb]; [split; reflexivity|].
  destruct (find_in_None name e) as [He1 He2].
  destruct (find_in name e) as [hit|].
  - destruct (has_element name e); cbn [orb]; [split; discriminate|].
    specialize (He2 eq_refl). discriminate.
  - now rewrite (He1 eq_refl).
Qed.

(** The search below an element that is not called [name] is the search
    in its contents. *)
Lemma find_in_contents (name n : string) (attrs : list (string * string))
  (contents : list page_element) :
  String.eqb n name = false ->
  find_in name (Tag n attrs contents) = find name contents.
Proof.
  intros Hn. cbn [find_in]. rewrite Hn.
  induction contents as [|c rest IH]; [reflexivity|].
  cbn [find]. destruct (find_in name c); [reflexivity | exact IH].
Qed.

(** X1: [get_synopsis] raises exactly when no [h1] element occurs in the
    document, at whatever depth. *)
Theorem get_synopsis_raises_iff_no_h1
  (decode : page_element -> string) (doc : soup) :
  raises (get_synopsis decode doc) <-> doc_has_element "h1" doc = false.
Proof.
  rewrite <- find_None. unfold get_synopsis.
  destruct (find "h1" doc) as [hit|] eqn:Hfind.
  - destruct (find_element "h1" doc hit Hfind) as (attrs & contents & ->).
    split; [intros [e He]|]; discriminate.
  - split; [reflexivity | intros _; apply raises_Raise].
Qed.

Lemma drop_chars_app (a b : string) :
  skip_continuation b = b -> drop_chars (str_len a) (a ++ b) = b.
Proof.
  intros Hb. rewrite <- drop_chars_skipn, (code_points_app a b Hb).
  unfold str_len. rewrite skipn_app, skipn_all, Nat.sub_diag.
  cbn [app skipn]. apply join_code_points.
Qed.

Lemma concatenation_cons (p : string) (parts : list string) :
  concatenation (p :: parts) = p ++ concatenation parts.
Proof. reflexivity. Qed.

(** X2: the heading of a documentation page.  With the module name as
    first child, then a text that begins with a separator of three
    characters (three code points, such as a space, the dash U+2014 and a
    space), then whatever inline markup, and the link to the heading as last
    child, the synopsis is the text after the separator followed by the
    renderings of the markup.  What follows the separator is a [str] of its
    own: it does not begin with the continuation bytes of a code point. *)
Theorem get_synopsis_of_docs_heading
  (decode : page_element -> string) (doc : soup)
  (name : string) (attrs : list (string * string))
  (first last : page_element) (middle : list page_element)
  (separator head : string) :
  let synopsis := head ++ concatenation (map (element_str decode) middle) in
  find "h1" doc
  = Some (Tag name attrs
            (first :: NavigableString (separator ++ head)
                   :: middle ++ [last])%list) ->
  str_len separator = 3%nat ->
  skip_continuation synopsis = synopsis ->
  get_synopsis decode doc = Ok synopsis.
Proof.
  intros synopsis Hfind Hsep Hsynopsis.
  rewrite (get_synopsis_of_heading decode doc name attrs _ Hfind).
  unfold without_first_and_last. cbn [tl].
  change (NavigableString (separator ++ head) :: middle ++ [last])%list
    with ((NavigableString (separator ++ head) :: middle) ++ [last])%list.
  rewrite removelast_last. cbn [map element_str].
  rewrite concatenation_cons, append_assoc, <- Hsep.
  fold synopsis. now rewrite drop_chars_app.
Qed.

Lemma get_synopsis_of_docs_heading_witness :
  str_len (" " ++ Demo.em_dash ++ " ") = 3%nat
  /\ String.length (" " ++ Demo.em_dash ++ " ") = 5%nat
  /\ get_synopsis Demo.render (Demo.page_of "ast" "Abstract Syntax Trees")
     = Ok ("Abstract Syntax Trees" ++ concatenation []).
Proof.
  split; [reflexivity|]. split; [reflexivity|].
  apply (get_synopsis_of_docs_heading Demo.render _ "h1" []
           (Tag "code" [] [NavigableString "ast"])
           (Tag "a" [("class", "headerlink")] [NavigableString "#"])
           [] (" " ++ Demo.em_dash ++ " ") "Abstract Syntax Trees");
    reflexivity.
Defined.

(** X3: the first heading in document order decides.  A top-level node
    that holds an [h1] hides the nodes after it, one that holds none is
    passed over; and below an element that is not itself an [h1] the search
    goes on in its contents. *)
Theorem get_synopsis_first_heading
  (decode : page_element -> string) (e : page_element) (rest : soup)
  (n : string) (attrs : list (string * string))
  (contents : list page_element) :
  get_synopsis decode (e :: rest)
  = (if has_element "h1" e then get_synopsis decode [e]
     else get_synopsis decode rest)
  /\ (String.eqb n "h1" = false ->
      get_synopsis decode (Tag n attrs contents :: rest)
      = if doc_has_element "h1" contents then get_synopsis decode contents
        else get_synopsis decode rest).
Proof.
  assert (Hfirst : forall e' rest',
             find "h1" (e' :: rest')
             = if has_element "h1" e' then find "h1" [e']
               else find "h1" rest').
  { intros e' rest'. cbn [find].
    destruct (find_in_None "h1" e') as [H1 H2].
    destruct (find_in "h1" e') as [hit|].
    - destruct (has_element "h1" e'); [reflexivity|].
      specialize (H2 eq_refl). discriminate.
    - now rewrite (H1 eq_refl). }
  split.
  - unfold get_synopsis. rewrite Hfirst.
    now destruct (has_element "h1" e).
  - intros Hn. unfold get_synopsis. cbn [find].
    rewrite (find_in_contents "h1" n attrs contents Hn).
    destruct (find_None "h1" contents) as [H1 H2].
    destruct (find "h1" contents) as [hit|].
    + destruct (doc_has_element "h1" contents); [reflexivity|].
      specialize (H2 eq_refl). discriminate.
    + now rewrite (H1 eq_refl).
Qed.

Lemma get_synopsis_first_heading_witness :
  get_synopsis Demo.render
    (Tag "div" [] [Tag "h1" [] [NavigableString "a"; NavigableString "b"]]
     :: Demo.page_of "ast" "Abstract Syntax Trees")
  = Ok "".
Proof.
  rewrite (proj2 (get_synopsis_first_heading Demo.render
                    (NavigableString "") _ "div" []
                    [Tag "h1" [] [NavigableString "a"; NavigableString "b"]])
             eq_refl).
  reflexivity.
Defined.

(** ** The response envelope *)

(** X4: a body that is not an object never gives a result and is never
    taken for a remote error: the call raises a [TypeError] or one of the
    three shape errors.  An array of the two strings [error] and [result]
    passes the three shape checks and fails in the subscript. *)
Theorem outcome_of_non_object (body : pyvalue) :
  (forall entries, body <> PyDict entries) ->
  ((exists message, response_table_outcome body = Raise (TypeError message))
   \/ response_table_outcome body
      = Raise (Exception "response has an unexpected number of fields")
   \/ response_table_outcome body
      = Raise (Exception "response is missing required error field")
   \/ response_table_outcome body
      = Raise (Exception "response is missing required result field"))
  /\ (forall items,
        body = PyList items -> List.length items = 2%nat ->
        In (PyStr "error") items -> In (PyStr "result") items ->
        response_table_outcome body
        = Raise (TypeError
                   "list indices must be integers or slices, not str")).
Proof.
  intros Hbody. split.
  - destruct body as [| b | n | r | s | items | entries];
      try (left; eexists; reflexivity).
    + unfold response_table_outcome. cbn [py_len bind_result].
      destruct (Nat.eqb_spec (str_len s) 2) as [Hlen | Hlen];
        cbn [negb]; [|now right; left].
      cbn [py_contains bind_result].
      rewrite (short_str_lacks_error s Hlen). now right; right; left.
    + unfold response_table_outcome. cbn [py_len bind_result].
      destruct (Nat.eqb (List.length items) 2); cbn [negb];
        [|now right; left].
      cbn [py_contains bind_result].
      destruct (existsb _ items); cbn [negb]; [|now right; right; left].
      destruct (existsb _ items); cbn [negb]; [|now right; right; right].
      left. eexists. reflexivity.
    + now destruct (Hbody entries).
  - intros items -> Hlen He Hr.
    unfold response_table_outcome. cbn [py_len bind_result].
    rewrite Hlen. cbn [Nat.eqb negb py_contains bind_result].
    assert (Hin : forall key, In (PyStr key) items ->
                   existsb (fun item => match item with
                                        | PyStr s => String.eqb s key
                                        | _ => false
                                        end) items = true).
    { intros key Hkey. apply existsb_exists. exists (PyStr key).
      split; [assumption | apply String.eqb_refl]. }
    rewrite (Hin "error" He). cbn [negb].
    rewrite (Hin "result" Hr). reflexivity.
Qed.

Lemma outcome_of_non_object_witness :
  response_table_outcome (PyList [PyStr "result"; PyStr "error"])
  = Raise (TypeError "list indices must be integers or slices, not str").
Proof.
  apply (proj2 (outcome_of_non_object
                  (PyList [PyStr "result"; PyStr "error"])
                  ltac:(discriminate))
           [PyStr "result"; PyStr "error"]);
    [reflexivity | reflexivity | simpl; tauto | simpl; tauto].
Defined.

(** ** Calls to AnkiConnect *)

Lemma error_status_dec (r : response) :
  {error_status r} + {~ error_status r}.
Proof.
  unfold error_status.
  destruct (Z_le_dec 400 (status_code r));
    destruct (Z_lt_dec (status_code r) 600); (left; lia) || (right; lia).
Qed.

Lemma raise_for_status_Raise (r : response) (e : exn) :
  raise_for_status r = Raise e -> error_status r.
Proof.
  intros H. destruct (error_status_dec r) as [Hs | Hs]; [assumption|].
  rewrite (raise_for_status_ok r Hs) in H. discriminate.
Qed.

Lemma raise_for_status_Ok (r : response) (u : unit) :
  raise_for_status r = Ok u -> ~ error_status r.
Proof.
  intros H Hs. rewrite (raise_for_status_error r Hs) in H. discriminate.
Qed.

Lemma transport_diagnostic_cases (E : Environment) (r : response) :
  (error_status r
   /\ transport_diagnostic E r
      = [Print ("Error getting response from AnkiConnect: "
                ++ http_error_msg r)])
  \/ (~ error_status r /\ transport_diagnostic E r = []).
Proof.
  unfold transport_diagnostic.
  destruct (error_status_dec r) as [Hs | Hs].
  - left. split; [assumption|].
    now rewrite (raise_for_status_error r Hs).
  - right. split; [assumption|]. now rewrite (raise_for_status_ok r Hs).
Qed.

Section MoreCalls.

Variable E : Environment.

(** X5: one call of [invoke_anki_connect] sends one POST, whatever
    happens: it never retries, fetches nothing and does not read the
    configuration.  It prints at most one line, and it prints one exactly
    when the POST was answered with an error status. *)
Theorem invoke_anki_connect_one_request
  (url : pyvalue) (action : string) (params : list (string * pyvalue))
  (t : trace) :
  exists evs,
    snd (invoke_anki_connect E url action params t) = (t ++ evs)%list
    /\ count is_post evs = 1%nat
    /\ count is_fetch evs = 0%nat
    /\ count is_config_read evs = 0%nat
    /\ (count is_print evs <= 1)%nat
    /\ (count is_print evs = 1%nat
        <-> exists r,
              requests_post E t url (get_anki_connect_request action params)
              = Ok r
              /\ error_status r).
Proof.
  rewrite invoke_anki_connect_eq. cbn [snd].
  exists (invoke_events E t url action params).
  split; [reflexivity|]. unfold invoke_events.
  destruct (requests_post E t url (get_anki_connect_request action params))
    as [r | e].
  - destruct (transport_diagnostic_cases E r) as [[Hs ->] | [Hs ->]];
      rewrite ?count_cons, ?count_nil;
      cbn [is_post is_fetch is_config_read is_print];
      (split; [reflexivity|]); (split; [reflexivity|]);
      (split; [reflexivity|]); (split; [lia|]); split.
    + intros _. now exists r.
    + reflexivity.
    + discriminate.
    + intros (r' & [= <-] & Hs'). contradiction.
  - rewrite ?count_cons, ?count_nil;
      cbn [is_post is_fetch is_config_read is_print];
      (split; [reflexivity|]); (split; [reflexivity|]);
      (split; [reflexivity|]); (split; [lia|]); split.
    + discriminate.
    + intros (r' & H & _). discriminate.
Qed.

End MoreCalls.

(** X7: the result of a call is decided by the text of the answer alone.
    Two answered calls, in whatever worlds, with whatever addresses, actions
    and statuses, give the same result when the two answers have the same
    text and the two worlds decode it alike. *)
Theorem invoke_anki_connect_result_of_text
  (E1 E2 : Environment) (url1 url2 : pyvalue) (action1 action2 : string)
  (params1 params2 : list (string * pyvalue)) (t1 t2 : trace)
  (r1 r2 : response) :
  requests_post E1 t1 url1 (get_anki_connect_request action1 params1)
  = Ok r1 ->
  requests_post E2 t2 url2 (get_anki_connect_request action2 params2)
  = Ok r2 ->
  text r1 = text r2 ->
  json_loads E1 (text r1) = json_loads E2 (text r2) ->
  fst (invoke_anki_connect E1 url1 action1 params1 t1)
  = fst (invoke_anki_connect E2 url2 action2 params2 t2).
Proof.
  intros H1 H2 Htext Hloads. rewrite !invoke_anki_connect_eq.
  unfold invoke_result. cbn [fst]. rewrite H1, H2. cbn [bind_result].
  now rewrite Hloads.
Qed.

Lemma invoke_anki_connect_result_of_text_witness :
  fst (invoke_anki_connect Demo.E Demo.anki_url "addNote" [] [])
  = fst (invoke_anki_connect Demo.E_500 (PyStr "elsewhere") "guiBrowse"
           [] []).
Proof.
  apply (invoke_anki_connect_result_of_text Demo.E Demo.E_500 _ _ _ _ _ _
           [] [] (Demo.first_reply 200) (Demo.first_reply 500));
    reflexivity.
Defined.

(** ** Submissions *)

Section MoreSubmissions.

Variable E : Environment.

(** X8: a configuration that lacks one of the five values.  The
    configuration is read, the lookup of the first missing key, in the order
    of the lookups, raises its [KeyError], and no request is sent: there is
    no note without a complete configuration. *)
Theorem add_synopsis_anki_note_missing_key
  (synopsis module link : string) (t : trace)
  (entries : list (string * pyvalue)) (key : string) :
  load_config E t = Ok (PyDict entries) ->
  List.find (lacks entries) config_keys = Some key ->
  add_synopsis_anki_note E synopsis module link t
  = (Raise (PyExc "KeyError" (PyStr key)),
     (t ++ [ReadConfig (Ok (PyDict entries))])%list).
Proof.
  intros Hconfig Hkey. rewrite add_synopsis_anki_note_eq. cbv zeta.
  rewrite Hconfig. cbn [bind_result]. revert Hkey.
  unfold config_values, config_keys, lacks, py_getitem.
  cbn [List.find].
  destruct (dict_get "anki-connect-url" entries); cbn [bind_result];
    [|now intros [= <-]].
  destruct (dict_get "anki-deck" entries); cbn [bind_result];
    [|now intros [= <-]].
  destruct (dict_get "anki-model" entries); cbn [bind_result];
    [|now intros [= <-]].
  destruct (dict_get "hint-synopsis" entries); cbn [bind_result];
    [|now intros [= <-]].
  destruct (dict_get "tags-synopsis" entries); cbn [bind_result];
    [discriminate | now intros [= <-]].
Qed.

(** What [create_synopsis_note] returns and adds to the trace. *)
Lemma create_synopsis_note_shape (module : string) (python_version : Z)
  (t : trace) :
  exists evs,
    snd (create_synopsis_note E module python_version t) = (t ++ evs)%list
    /\ module_footprint E module python_version
         (fst (create_synopsis_note E module python_version t)) evs.
Proof.
  unfold create_synopsis_note, bind, get, lift, print, ret.
  set (link := docs_url module python_version).
  destruct (requests_get E t link) as [page | e].
  2:{ eexists. split; [reflexivity | apply footprint_transport]. }
  destruct (raise_for_status page) as [u | e] eqn:Hstatus.
  2:{ apply raise_for_status_Raise in Hstatus as Hs.
      rewrite (raise_for_status_error page Hs) in Hstatus.
      injection Hstatus as <-. cbn [exn_str py_str fst snd].
      eexists. split; [now rewrite <- app_assoc|].
      now apply footprint_skipped. }
  apply raise_for_status_Ok in Hstatus as Hs.
  destruct (BeautifulSoup E (html_file page)) as [doc | e].
  2:{ eexists. split; [reflexivity | now apply footprint_unparsed]. }
  destruct (get_synopsis (decode E) doc) as [synopsis | e].
  2:{ eexists. split; [reflexivity | now apply footprint_unparsed]. }
  rewrite add_synopsis_anki_note_eq. cbv zeta.
  set (t1 := (t ++ [HttpGet link (Ok page)])%list).
  destruct (load_config E t1) as [config | e] eqn:Hconfig;
    cbn [bind_result].
  2:{ eexists. cbn [fst snd]. unfold t1.
      split; [now rewrite <- app_assoc|].
      now apply footprint_no_config. }
  destruct (config_values config)
    as [[[[[url deck] model] hint] tags] | e] eqn:Hvalues.
  2:{ eexists. cbn [fst snd]. unfold t1.
      split; [now rewrite <- app_assoc|].
      now apply footprint_no_config. }
  rewrite invoke_anki_connect_eq. cbn [fst snd].
  set (t2 := (t1 ++ [ReadConfig (Ok config)])%list).
  set (data := get_anki_connect_request "addNote"
                 [("note", synopsis_note deck model hint tags synopsis
                             module link)]).
  pose proof (footprint_submitted E module python_version page config url
                deck model hint tags synopsis (requests_post E t2 url data)
                Hs Hvalues) as Hfootprint.
  eexists. split; [|exact Hfootprint].
  unfold invoke_events, t2, t1. fold data.
  rewrite <- !app_assoc. reflexivity.
Qed.

End MoreSubmissions.

Lemma add_synopsis_anki_note_missing_key_witness :
  add_synopsis_anki_note Scenario.E_incomplete
    "Abstract Syntax Trees" "ast" Demo.ast_link []
  = (Raise (PyExc "KeyError" (PyStr "anki-model")),
     [ReadConfig (Ok (PyDict Scenario.incomplete_entries))]).
Proof.
  apply (add_synopsis_anki_note_missing_key Scenario.E_incomplete
           "Abstract Syntax Trees" "ast" Demo.ast_link []
           Scenario.incomplete_entries "anki-model"); reflexivity.
Defined.

(** ** Runs *)

Lemma fetched_app (t1 t2 : trace) :
  fetched (t1 ++ t2)%list = (fetched t1 ++ fetched t2)%list.
Proof. apply flat_map_app. Qed.

Lemma count_is_fetch (t : trace) : count is_fetch t = List.length (fetched t).
Proof.
  induction t as [|e t IH]; [reflexivity|].
  rewrite count_cons. change (e :: t) with ([e] ++ t)%list.
  rewrite fetched_app, length_app, <- IH. now destruct e.
Qed.

Lemma after_app (previous : option event) (t1 t2 : trace) :
  after previous (t1 ++ t2)%list = after (after previous t1) t2.
Proof. apply fold_left_app. Qed.

Lemma after_None (t : trace) (e : event) :
  after None t = Some e -> exists t', t = (t' ++ [e])%list.
Proof.
  induction t as [|e0 t0 _] using rev_ind; [discriminate|].
  rewrite after_app. cbn. intros [= <-]. now exists t0.
Qed.

Lemma configured_app (previous : option event) (t1 t2 : trace) :
  configured previous (t1 ++ t2)%list
  <-> configured previous t1 /\ configured (after previous t1) t2.
Proof.
  revert previous. induction t1 as [|e t1 IH]; intros previous.
  - cbn. tauto.
  - cbn [app configured]. rewrite IH. cbn. tauto.
Qed.

Lemma config_values_url
  (config anki_connect_url anki_deck anki_model hint tags : pyvalue) :
  config_values config
  = Ok (anki_connect_url, anki_deck, anki_model, hint, tags) ->
  py_getitem config "anki-connect-url" = Ok anki_connect_url.
Proof.
  unfold config_values.
  destruct (py_getitem config "anki-connect-url"); cbn [bind_result];
    [|discriminate].
  destruct (py_getitem config "anki-deck"); cbn [bind_result];
    [|discriminate].
  destruct (py_getitem config "anki-model"); cbn [bind_result];
    [|discriminate].
  destruct (py_getitem config "hint-synopsis"); cbn [bind_result];
    [|discriminate].
  destruct (py_getitem config "tags-synopsis"); cbn [bind_result];
    [|discriminate].
  now intros [= -> _ _ _ _].
Qed.

Lemma is_good_fetch_ok (target : string) (page : response) :
  ~ error_status page -> is_good_fetch (HttpGet target (Ok page)) = true.
Proof. intros Hs. cbn. now rewrite (raise_for_status_ok page Hs). Qed.

Lemma is_good_fetch_error (target : string) (page : response) :
  error_status page -> is_good_fetch (HttpGet target (Ok page)) = false.
Proof. intros Hs. cbn. now rewrite (raise_for_status_error page Hs). Qed.

(** The counts of what the answer to a POST may add. *)
Lemma diagnostic_counts (E : Environment) (answer : result response) :
  let diagnostic := match answer with
                    | Ok r => transport_diagnostic E r
                    | Raise _ => []
                    end in
  count is_post diagnostic = 0%nat
  /\ count is_fetch diagnostic = 0%nat
  /\ count is_good_fetch diagnostic = 0%nat
  /\ count is_config_read diagnostic = 0%nat
  /\ fetched diagnostic = []
  /\ (forall previous, configured previous diagnostic).
Proof.
  destruct answer as [r | e]; cbn zeta.
  - unfold transport_diagnostic. destruct (raise_for_status r);
      repeat split; cbn; tauto.
  - repeat split.
Qed.

Section Footprints.

Variable E : Environment.
Variable module : string.
Variable python_version : Z.

(** What the events of one module count up to. *)
Lemma module_footprint_counts (outcome : result pyvalue)
  (evs : list event) :
  module_footprint E module python_version outcome evs ->
  count is_fetch evs = 1%nat
  /\ (count is_post evs <= count is_config_read evs)%nat
  /\ (count is_config_read evs <= count is_good_fetch evs)%nat
  /\ fetched evs = [docs_url module python_version]
  /\ (forall previous, configured previous evs).
Proof.
  intros [e | page Hs | page e Hs | page answer e Hs Hconfig
          | page config url deck model hint tags synopsis answer Hs Hvalues].
  - repeat split; cbn; lia.
  - rewrite !count_cons, count_nil, (is_good_fetch_error _ page Hs).
    repeat split; cbn; lia.
  - rewrite !count_cons, count_nil, (is_good_fetch_ok _ page Hs).
    repeat split; cbn; lia.
  - rewrite !count_cons, count_nil, (is_good_fetch_ok _ page Hs).
    repeat split; cbn; lia.
  - destruct (diagnostic_counts E answer)
      as (Hp & Hf & Hg & Hc & Hfetched & Hconf).
    cbv zeta in *.
    rewrite !count_app, Hp, Hf, Hg, Hc, !count_cons, !count_nil,
      (is_good_fetch_ok _ page Hs), fetched_app, Hfetched.
    split; [reflexivity|]. split; [cbn; lia|]. split; [cbn; lia|].
    split; [reflexivity|]. intros previous.
    apply configured_app. split; [|apply Hconf].
    cbn. repeat split. exists config. split; [reflexivity|].
    eapply config_values_url. eassumption.
Qed.

End Footprints.

Section Summaries.

Variable E : Environment.
Variable python_version : Z.

(** What the loop adds to the trace, whether it comes to its end or not. *)
Lemma main_loop_summary (modules : list string) :
  forall (note_ids : list pyvalue) (t : trace),
  exists evs k,
    snd (main_loop E modules python_version note_ids t) = (t ++ evs)%list
    /\ (count is_post evs <= count is_config_read evs)%nat
    /\ (count is_config_read evs <= count is_good_fetch evs)%nat
    /\ (k <= List.length modules)%nat
    /\ fetched evs = links python_version k modules
    /\ (forall note_ids',
          fst (main_loop E modules python_version note_ids t) = Ok note_ids'
          -> k = List.length modules)
    /\ (forall previous, configured previous evs).
Proof.
  induction modules as [|module rest IH]; intros note_ids t.
  - exists [], 0%nat. cbn. rewrite app_nil_r. repeat split; lia.
  - rewrite main_loop_cons.
    destruct (create_synopsis_note_shape E module python_version t)
      as (evs1 & Hsnd & Hfoot).
    destruct (module_footprint_counts E module python_version _ _ Hfoot)
      as (_ & Hp1 & Hr1 & Hf1 & Hc1).
    assert (Hgo : forall ids1 line,
               (line = [] \/ exists l, line = [Print l]) ->
               exists evs k,
                 snd (main_loop E rest python_version ids1
                        ((t ++ evs1) ++ line)%list) = (t ++ evs)%list
                 /\ (count is_post evs <= count is_config_read evs)%nat
                 /\ (count is_config_read evs <= count is_good_fetch evs)%nat
                 /\ (k <= List.length (module :: rest))%nat
                 /\ fetched evs = links python_version k (module :: rest)
                 /\ (forall note_ids',
                       fst (main_loop E rest python_version ids1
                              ((t ++ evs1) ++ line)%list) = Ok note_ids'
                       -> k = List.length (module :: rest))
                 /\ (forall previous, configured previous evs)).
    { intros ids1 line Hline.
      destruct (IH ids1 ((t ++ evs1) ++ line)%list)
        as (evs2 & k2 & Hsnd2 & Hp2 & Hr2 & Hk2 & Hf2 & Hok2 & Hc2).
      assert (Hl : count is_post line = 0%nat
                   /\ count is_config_read line = 0%nat
                   /\ count is_good_fetch line = 0%nat
                   /\ fetched line = []
                   /\ forall previous, configured previous line).
      { destruct Hline as [-> | [l ->]]; repeat split. }
      destruct Hl as (Hpl & Hrl & Hgl & Hfl & Hcl).
      exists (evs1 ++ line ++ evs2)%list, (S k2).
      split; [rewrite Hsnd2; now rewrite <- !app_assoc|].
      rewrite !count_app, !fetched_app, Hf1, Hfl, Hf2, Hpl, Hrl, Hgl.
      cbn [List.length app]. repeat split; try lia.
      - intros ids' Hfst. now rewrite (Hok2 ids' Hfst).
      - intros previous. apply configured_app. split; [apply Hc1|].
        apply configured_app. split; [apply Hcl | apply Hc2]. }
    destruct (create_synopsis_note E module python_version t)
      as [[note_id | e] t'] eqn:Hcreate; cbn [fst snd] in Hsnd, Hfoot;
      subst t'.
    2:{ exists evs1, 1%nat. cbn [fst snd List.length].
        repeat split; try assumption; try lia. discriminate. }
    destruct note_id;
      first [ specialize (Hgo note_ids [] (or_introl eq_refl));
              rewrite app_nil_r in Hgo; exact Hgo
            | apply Hgo; right; eexists; reflexivity ].
Qed.

(** What [gui_browse_notes] adds to the trace. *)
Lemma gui_browse_notes_summary (note_ids : list pyvalue) (t : trace) :
  exists evs,
    snd (gui_browse_notes E note_ids t) = (t ++ evs)%list
    /\ (count is_post evs <= count is_config_read evs)%nat
    /\ count is_config_read evs = 1%nat
    /\ count is_good_fetch evs = 0%nat
    /\ fetched evs = []
    /\ (forall previous, configured previous evs).
Proof.
  rewrite gui_browse_notes_eq. cbv zeta.
  destruct (load_config E t) as [config | e]; cbn [bind_result].
  2:{ exists [ReadConfig (Raise e)]. repeat split. cbn. lia. }
  destruct (py_getitem config "anki-connect-url") as [url | e] eqn:Hurl.
  2:{ exists [ReadConfig (Ok config)]. repeat split. cbn. lia. }
  rewrite invoke_anki_connect_eq. cbn [snd]. unfold invoke_events.
  set (data := get_anki_connect_request "guiBrowse" _).
  set (answer := requests_post E _ url data).
  destruct (diagnostic_counts E answer)
    as (Hp & Hf & Hg & Hc & Hfetched & Hconf).
  cbv zeta in *.
  exists ([ReadConfig (Ok config); HttpPost url data answer]
          ++ match answer with
             | Ok r => transport_diagnostic E r
             | Raise _ => []
             end)%list.
  split; [now rewrite <- app_assoc|].
  rewrite !count_app, fetched_app, Hp, Hg, Hc, Hfetched.
  split; [cbn; lia|]. split; [reflexivity|]. split; [reflexivity|].
  split; [reflexivity|].
  intros previous. apply configured_app. split; [|apply Hconf].
  cbn. repeat split. now exists config.
Qed.

(** What a run does, whether it comes to its end or not. *)
Lemma main_summary (modules : list string) :
  exists k,
    (count is_post (snd (main E modules python_version []))
     <= count is_config_read (snd (main E modules python_version [])))%nat
    /\ (count is_config_read (snd (main E modules python_version []))
        <= S (count is_good_fetch (snd (main E modules python_version []))))%nat
    /\ (k <= List.length modules)%nat
    /\ fetched (snd (main E modules python_version [])) = links python_version k modules
    /\ (forall status,
          fst (main E modules python_version []) = Ok status ->
          k = List.length modules)
    /\ configured None (snd (main E modules python_version [])).
Proof.
  rewrite main_eq.
  destruct (main_loop_summary modules [] [])
    as (evs & k & Hsnd & Hp & Hr & Hk & Hf & Hok & Hc).
  exists k.
  destruct (main_loop E modules python_version [] [])
    as [[note_ids | e] t1]; cbn [fst snd app] in Hsnd, Hok; subst t1.
  2:{ cbn [fst snd]. repeat split; try assumption; try lia.
      - discriminate.
      - apply Hc. }
  specialize (Hok note_ids eq_refl).
  destruct (gui_browse_notes_summary note_ids evs)
    as (evs2 & Hsnd2 & Hp2 & Hr2 & Hg2 & Hf2 & Hc2).
  assert (Hrun : snd (match gui_browse_notes E note_ids evs with
                      | (Ok _, t2) => (Ok 0%Z, t2)
                      | (Raise e, t2) => (@Raise Z e, t2)
                      end) = (evs ++ evs2)%list).
  { rewrite <- Hsnd2. now destruct (gui_browse_notes E note_ids evs)
                        as [[v | e] t2]. }
  rewrite Hrun, !count_app, fetched_app, Hf2, app_nil_r.
  repeat split; try assumption; try lia.
  apply configured_app. split; [apply Hc | apply Hc2].
Qed.

End Summaries.

Lemma count_le (f g : event -> bool) (t : trace) :
  (forall e, f e = true -> g e = true) -> (count f t <= count g t)%nat.
Proof.
  intros Hfg. induction t as [|e t IH]; [reflexivity|].
  rewrite !count_cons. specialize (Hfg e).
  destruct (f e); destruct (g e); try lia.
Qed.

Lemma links_length (python_version : Z) (k : nat) (modules : list string) :
  (List.length
     (map (fun module => docs_url module python_version) (firstn k modules))
   <= List.length modules)%nat.
Proof. rewrite length_map, length_firstn. lia. Qed.

Lemma created_ids_bound (E : Environment) (t : trace) :
  (List.length (created_ids E t) <= count is_post t)%nat
  /\ ~ In PyNone (created_ids E t).
Proof.
  induction t as [|e t [IHlen IHin]]; [split; [reflexivity | tauto]|].
  change (e :: t) with ([e] ++ t)%list.
  rewrite created_ids_app, length_app, count_app.
  assert (He : (List.length (created_ids E [e]) <= count is_post [e])%nat
               /\ ~ In PyNone (created_ids E [e])).
  { unfold created_ids. cbn [flat_map]. rewrite app_nil_r.
    destruct e as [line | target answer | target data [r | e] | answer];
      try (split; [cbn; lia | tauto]).
    cbn [created_by].
    destruct (is_call "addNote" (HttpPost target data (Ok r)));
      [|split; [cbn; lia | tauto]].
    destruct (let? response_table := json_loads E (text r) in
              response_table_outcome response_table) as [[] | e];
      (split; [cbn; lia | cbn; intuition discriminate]). }
  destruct He as [Helen Hein]. split; [lia|].
  intros Hin. apply in_app_or in Hin. tauto.
Qed.

Section MoreRuns.

Variable E : Environment.

(** A module whose fetch is answered with an error status. *)
Lemma create_synopsis_note_skips (module : string) (python_version : Z)
  (t : trace) (page : response) :
  requests_get E t (docs_url module python_version) = Ok page ->
  error_status page ->
  create_synopsis_note E module python_version t
  = (Ok PyNone,
     (t ++ [HttpGet (docs_url module python_version) (Ok page);
            Print ("Failed to get docs for " ++ module ++ ": "
                   ++ http_error_msg page)])%list).
Proof.
  intros Hget Hstatus.
  unfold create_synopsis_note, bind, get, print, ret.
  rewrite Hget, (raise_for_status_error page Hstatus).
  cbn [exn_str py_str]. now rewrite <- app_assoc.
Qed.

(** X6: an AnkiConnect that cannot be reached ends the run.  After the
    modules [done], the next module's page is fetched and parsed, its
    synopsis extracted and the configuration read; then [requests.post]
    itself raises.  Nothing catches the exception: [main] raises it, the
    trace of the run ends with that one attempt, without a retry and
    without a printed line, and no module of [rest] is looked at. *)
Theorem unreachable_anki_connect_is_fatal
  (done rest : list string) (module : string) (python_version : Z)
  (note_ids : list pyvalue) (t : trace)
  (page : response) (doc : soup) (synopsis : string)
  (config anki_connect_url anki_deck anki_model hint tags : pyvalue)
  (e : exn) :
  let link := docs_url module python_version in
  let data := get_anki_connect_request "addNote"
                [("note", synopsis_note anki_deck anki_model hint tags
                            synopsis module link)] in
  let t1 := (t ++ [HttpGet link (Ok page); ReadConfig (Ok config)])%list in
  main_loop E done python_version [] [] = (Ok note_ids, t) ->
  requests_get E t link = Ok page ->
  ~ error_status page ->
  BeautifulSoup E (html_file page) = Ok doc ->
  get_synopsis (decode E) doc = Ok synopsis ->
  load_config E (t ++ [HttpGet link (Ok page)])%list = Ok config ->
  config_values config
  = Ok (anki_connect_url, anki_deck, anki_model, hint, tags) ->
  requests_post E t1 anki_connect_url data = Raise e ->
  main E (done ++ module :: rest)%list python_version []
  = (Raise e, (t1 ++ [HttpPost anki_connect_url data (Raise e)])%list).
Proof.
  intros link data t1 Hloop Hget Hstatus Hsoup Hsyn Hconfig Hvalues Hpost.
  assert (Hcreate : create_synopsis_note E module python_version t
                    = (Raise e,
                       (t1 ++ [HttpPost anki_connect_url data (Raise e)])%list)).
  { unfold t1, data, link.
    rewrite (create_synopsis_note_submits E module python_version t page
               doc synopsis config anki_connect_url anki_deck anki_model
               hint tags Hget Hstatus Hsoup Hsyn Hconfig Hvalues).
    rewrite invoke_anki_connect_eq. unfold invoke_result, invoke_events.
    fold link. fold data. fold t1. now rewrite Hpost. }
  now rewrite main_eq, main_loop_app, Hloop, main_loop_cons, Hcreate.
Qed.

(** X9: a page without a heading ends the run.  After the modules
    [done], the next module's page is fetched without an error status and
    parsed, but holds no [h1]: [main] raises the error of [get_synopsis]
    right after the fetch, before the configuration is read or anything is
    sent, and no module of [rest] is looked at. *)
Theorem malformed_page_is_fatal
  (done rest : list string) (module : string) (python_version : Z)
  (note_ids : list pyvalue) (t : trace) (page : response) (doc : soup) :
  main_loop E done python_version [] [] = (Ok note_ids, t) ->
  requests_get E t (docs_url module python_version) = Ok page ->
  ~ error_status page ->
  BeautifulSoup E (html_file page) = Ok doc ->
  doc_has_element "h1" doc = false ->
  main E (done ++ module :: rest)%list python_version []
  = (Raise (Exception "h1 should be an instance of bs4.Tag"),
     (t ++ [HttpGet (docs_url module python_version) (Ok page)])%list).
Proof.
  intros Hloop Hget Hstatus Hsoup Hnone.
  apply find_None in Hnone.
  assert (Hcreate : create_synopsis_note E module python_version t
                    = (Raise (Exception "h1 should be an instance of bs4.Tag"),
                       (t ++ [HttpGet (docs_url module python_version)
                                (Ok page)])%list)).
  { unfold create_synopsis_note, bind, get, lift.
    rewrite Hget, (raise_for_status_ok page Hstatus), Hsoup.
    unfold get_synopsis. now rewrite Hnone. }
  now rewrite main_eq, main_loop_app, Hloop, main_loop_cons, Hcreate.
Qed.

(** X10: the modules are fetched in the order of the input, each one
    once, duplicates included, and nothing else is fetched: the addresses
    of the GETs of a run are those of the first [k] modules, and of all of
    them when the run comes to its end. *)
Theorem modules_are_fetched_in_order
  (modules : list string) (python_version : Z) :
  exists k,
    (k <= List.length modules)%nat
    /\ fetched (snd (main E modules python_version []))
       = map (fun module => docs_url module python_version)
           (firstn k modules)
    /\ (forall status,
          fst (main E modules python_version []) = Ok status ->
          fetched (snd (main E modules python_version []))
          = map (fun module => docs_url module python_version) modules).
Proof.
  destruct (main_summary E python_version modules)
    as (k & _ & _ & Hk & Hfetched & Hok & _).
  unfold links in Hfetched.
  exists k. split; [assumption|]. split; [assumption|].
  intros status Hstatus. rewrite Hfetched, (Hok status Hstatus).
  now rewrite firstn_all.
Qed.

(** X11: every request to AnkiConnect follows a successful read of the
    configuration file and goes to the [anki-connect-url] that this very
    read gave: the address is never kept from an earlier read. *)
Theorem posts_go_to_the_configured_url
  (modules : list string) (python_version : Z) :
  configured None (snd (main E modules python_version []))
  /\ (forall pre target data answer post,
        snd (main E modules python_version [])
        = (pre ++ HttpPost target data answer :: post)%list ->
        exists pre' config,
          pre = (pre' ++ [ReadConfig (Ok config)])%list
          /\ py_getitem config "anki-connect-url" = Ok target).
Proof.
  destruct (main_summary E python_version modules)
    as (k & _ & _ & _ & _ & _ & Hconf).
  split; [assumption|].
  intros pre target data answer post Hrun. rewrite Hrun in Hconf.
  apply configured_app in Hconf. destruct Hconf as [_ Hpost].
  cbn [configured] in Hpost. destruct Hpost as [(config & Hafter & Hurl) _].
  destruct (after_None pre _ Hafter) as [pre' ->].
  now exists pre', config.
Qed.

(** X12: what a run asks of the outside world, whether it comes to its
    end or not: at most one fetch for each module, never more reads of the
    configuration than fetches without an error status plus the one for
    browsing, and never more requests to AnkiConnect than reads of the
    configuration. *)
Theorem requests_of_a_run (modules : list string) (python_version : Z) :
  let t := snd (main E modules python_version []) in
  (count is_post t <= count is_config_read t)%nat
  /\ (count is_config_read t <= S (count is_good_fetch t))%nat
  /\ (count is_good_fetch t <= count is_fetch t)%nat
  /\ (count is_fetch t <= List.length modules)%nat.
Proof.
  destruct (main_summary E python_version modules)
    as (k & Hp & Hr & _ & Hfetched & _ & _).
  unfold links in Hfetched.
  cbv zeta. split; [assumption|]. split; [assumption|]. split.
  - apply count_le. intros [line | target [r | e] | ? ? ? | ?];
      cbn; congruence.
  - rewrite count_is_fetch, Hfetched. apply links_length.
Qed.

(** X13: the loop over a list of modules in two parts is the loop over
    the first part, followed, when it comes to its end, by the loop over
    the second part from the accumulator and the trace it has reached. *)
Theorem main_loop_in_two_parts
  (done rest : list string) (python_version : Z)
  (note_ids : list pyvalue) (t : trace) :
  main_loop E (done ++ rest)%list python_version note_ids t
  = match main_loop E done python_version note_ids t with
    | (Ok note_ids', t') => main_loop E rest python_version note_ids' t'
    | (Raise e, t') => (Raise e, t')
    end.
Proof. apply main_loop_app. Qed.

(** X14: the accumulator only grows: when the loop comes to its end, what
    it returns is the accumulator it started with followed by at most one
    new identifier for each module, none of which is [None]. *)
Theorem accumulator_only_grows
  (modules : list string) (python_version : Z)
  (note_ids note_ids' : list pyvalue) (t t' : trace) :
  main_loop E modules python_version note_ids t = (Ok note_ids', t') ->
  exists new,
    note_ids' = (note_ids ++ new)%list
    /\ (List.length new <= List.length modules)%nat
    /\ ~ In PyNone new.
Proof.
  intros Hloop.
  destruct (main_loop_events E modules python_version note_ids t)
    as (evs & Hsnd & _ & Hok).
  destruct (main_loop_summary E python_version modules note_ids t)
    as (evs' & k & Hsnd' & Hp & Hr & _ & Hfetched & _ & _).
  unfold links in Hfetched.
  rewrite Hsnd in Hsnd'. apply app_inv_head in Hsnd'. subst evs'.
  rewrite Hloop in Hok. destruct (Hok note_ids' eq_refl) as (_ & _ & Hids).
  destruct (created_ids_bound E evs) as [Hlen Hin].
  exists (created_ids E evs). split; [assumption|]. split; [|assumption].
  assert (Hgood : (count is_good_fetch evs <= count is_fetch evs)%nat).
  { apply count_le. intros [line | target [r | e] | ? ? ? | ?];
      cbn; congruence. }
  rewrite count_is_fetch, Hfetched in Hgood.
  pose proof (links_length python_version k modules). lia.
Qed.

(** X15: a batch in which every fetch is answered with an error status
    creates nothing: the loop comes to its end with the accumulator it
    started with, having fetched every module and printed one diagnostic
    for each, without reading the configuration or sending any request to
    AnkiConnect. *)
Theorem batch_of_error_statuses (python_version : Z) :
  (forall t target,
      exists page, requests_get E t target = Ok page /\ error_status page) ->
  forall (modules : list string) (note_ids : list pyvalue) (t : trace),
  exists evs,
    main_loop E modules python_version note_ids t
    = (Ok note_ids, (t ++ evs)%list)
    /\ count is_post evs = 0%nat
    /\ count is_config_read evs = 0%nat
    /\ count is_print evs = List.length modules
    /\ fetched evs
       = map (fun module => docs_url module python_version) modules.
Proof.
  intros Hworld modules. induction modules as [|module rest IH];
    intros note_ids t.
  - exists []. cbn. rewrite app_nil_r. repeat split.
  - destruct (Hworld t (docs_url module python_version))
      as (page & Hget & Hstatus).
    rewrite main_loop_cons,
      (create_synopsis_note_skips module python_version t page Hget Hstatus).
    destruct (IH note_ids
                (t ++ [HttpGet (docs_url module python_version) (Ok page);
                       Print ("Failed to get docs for " ++ module ++ ": "
                              ++ http_error_msg page)])%list)
      as (evs & Hloop & Hp & Hc & Hprints & Hfetched).
    eexists (_ :: _ :: evs). rewrite Hloop, <- app_assoc.
    split; [reflexivity|].
    rewrite !count_cons, Hp, Hc, Hprints.
    change (fetched (?a :: ?b :: evs)) with (fetched [a; b] ++ fetched evs)%list.
    rewrite Hfetched. repeat split.
Qed.

(** X16: a run that cannot read the configuration for browsing, or finds
    no [anki-connect-url] in it, ends with that error after the loop has
    come to its end: nothing is undone, the notes of the accumulator are
    those that were created, and no [guiBrowse] is sent. *)
Theorem browse_failure_keeps_notes
  (modules : list string) (python_version : Z)
  (note_ids : list pyvalue) (t1 : trace) (e : exn) :
  main_loop E modules python_version [] [] = (Ok note_ids, t1) ->
  (let? config := load_config E t1 in
   py_getitem config "anki-connect-url") = Raise e ->
  main E modules python_version []
  = (Raise e, (t1 ++ [ReadConfig (load_config E t1)])%list)
  /\ created_ids E (t1 ++ [ReadConfig (load_config E t1)])%list = note_ids
  /\ count (is_call "guiBrowse") (t1 ++ [ReadConfig (load_config E t1)])%list
     = 0%nat.
Proof.
  intros Hloop Hconfig.
  destruct (main_loop_events E modules python_version [] [])
    as (evs & Hsnd & Hbrowse & Hok).
  rewrite Hloop in Hsnd, Hok. cbn [fst snd app] in Hsnd, Hok. subst evs.
  destruct (Hok note_ids eq_refl) as (_ & _ & Hids).
  split; [|split].
  - rewrite main_eq, Hloop, gui_browse_notes_eq. cbv zeta.
    now rewrite Hconfig.
  - rewrite created_ids_app. cbn. now rewrite app_nil_r.
  - now rewrite count_app, Hbrowse.
Qed.

End MoreRuns.

(** ** The query of [guiBrowse] *)

Lemma split_on_plain (sep : ascii) (p : string) :
  ~ In sep (list_ascii_of_string p) -> split_on sep p = [p].
Proof.
  induction p as [|c p IH]; [reflexivity|]. cbn. intros Hin.
  destruct (Ascii.eqb_spec c sep) as [-> | _]; [tauto|].
  rewrite IH; tauto.
Qed.

Lemma split_on_app_sep (sep : ascii) (p s : string) :
  ~ In sep (list_ascii_of_string p) ->
  split_on sep (p ++ String sep s) = p :: split_on sep s.
Proof.
  induction p as [|c p IH]; cbn.
  - intros _. now rewrite Ascii.eqb_refl.
  - intros Hin. destruct (Ascii.eqb_spec c sep) as [-> | _]; [tauto|].
    rewrite IH; tauto.
Qed.

Lemma split_on_join (sep : ascii) (parts : list string) :
  parts <> [] ->
  Forall (fun p => ~ In sep (list_ascii_of_string p)) parts ->
  split_on sep (join (String sep "") parts) = parts.
Proof.
  induction parts as [|p [|q rest] IH]; [congruence | |];
    intros _ Hparts; inversion Hparts as [|? ? Hp Hrest]; subst.
  - now apply split_on_plain.
  - change (join (String sep "") (p :: q :: rest))
      with (p ++ String sep (join (String sep "") (q :: rest))).
    rewrite (split_on_app_sep sep p _ Hp). f_equal.
    apply IH; [discriminate | assumption].
Qed.

Lemma string_of_uint_no_comma (d : Decimal.uint) :
  ~ In ","%char (list_ascii_of_string (NilEmpty.string_of_uint d)).
Proof.
  induction d; cbn; intros H; try tauto;
    destruct H as [H | H]; try discriminate; tauto.
Qed.

Lemma str_of_Z_no_comma (n : Z) :
  ~ In ","%char (list_ascii_of_string (str_of_Z n)).
Proof.
  unfold str_of_Z, NilZero.string_of_int, NilZero.string_of_uint.
  destruct (Z.to_int n) as [d | d].
  - destruct d; try apply string_of_uint_no_comma.
    cbn. intros [H | H]; [discriminate | tauto].
  - cbn [list_ascii_of_string]. intros [H | H]; [discriminate|].
    revert H. destruct d; try apply string_of_uint_no_comma.
    cbn. intros [H | H]; [discriminate | tauto].
Qed.

(** [int(str(n))] is [n]. *)
Lemma int_of_str_of_Z (n : Z) : int_of_str (str_of_Z n) = Some n.
Proof.
  unfold int_of_str, str_of_Z. rewrite NilZero.isi.
  - cbn. now rewrite DecimalZ.of_to.
  - destruct n; cbn; try discriminate.
    intros [= H]. now apply Unsigned.to_uint_nonnil in H.
  - destruct n; cbn; try discriminate.
    intros [= H]. now apply Unsigned.to_uint_nonnil in H.
Qed.

(** X17: the query for integer identifiers can be read back.  With a
    non-empty list [ns] of integers as identifiers, the request that
    [gui_browse_notes] sends has the query [nid:] followed by a text that,
    split at its commas and read as decimal numerals, is [ns] again, in the
    same order. *)
Theorem browse_query_reads_back
  (E : Environment) (ns : list Z) (t : trace)
  (config anki_connect_url : pyvalue) :
  ns <> [] ->
  load_config E t = Ok config ->
  py_getitem config "anki-connect-url" = Ok anki_connect_url ->
  exists ids_text answer diagnostic,
    snd (gui_browse_notes E (map PyInt ns) t)
    = (t ++ [ReadConfig (Ok config);
             HttpPost anki_connect_url
               (get_anki_connect_request "guiBrowse"
                  [("query", PyStr ("nid:" ++ ids_text))])
               answer]
         ++ diagnostic)%list
    /\ map int_of_str (split_on ","%char ids_text) = map Some ns.
Proof.
  intros Hns Hconfig Hurl.
  exists (join "," (map (py_str E) (map PyInt ns))).
  rewrite gui_browse_notes_eq. cbv zeta. rewrite Hconfig.
  cbn [bind_result]. rewrite Hurl, invoke_anki_connect_eq.
  cbn [snd]. unfold invoke_events.
  eexists _, _. split.
  - rewrite <- app_assoc. cbn [app]. reflexivity.
  - rewrite map_map. cbn [py_str].
    rewrite split_on_join.
    + rewrite map_map. apply map_ext. intros n. apply int_of_str_of_Z.
    + destruct ns; [congruence | discriminate].
    + apply Forall_forall. intros p Hp. apply in_map_iff in Hp.
      destruct Hp as (n & <- & _). apply str_of_Z_no_comma.
Qed.

(** * The further properties at work in the scripted worlds *)

Lemma unreachable_anki_connect_is_fatal_witness :
  main Scenario.E_anki_down ["ast"; "io"] 3 []
  = (Raise Demo.unreachable,
     [HttpGet Demo.ast_link (Ok Demo.ast_page);
      ReadConfig (Ok Demo.config);
      HttpPost Demo.anki_url
        (get_anki_connect_request "addNote"
           [("note", synopsis_note (PyStr "Python") (PyStr "Basic")
                       (PyStr "module") Demo.tags
                       "Abstract Syntax Trees" "ast" Demo.ast_link)])
        (Raise Demo.unreachable)]).
Proof.
  assert (Hstatus : ~ error_status Demo.ast_page)
    by (unfold error_status; simpl; lia).
  apply (unreachable_anki_connect_is_fatal Scenario.E_anki_down [] ["io"]
           "ast" 3 [] [] Demo.ast_page
           (Demo.page_of "ast" "Abstract Syntax Trees")
           "Abstract Syntax Trees" Demo.config Demo.anki_url
           (PyStr "Python") (PyStr "Basic") (PyStr "module") Demo.tags
           Demo.unreachable);
    solve [reflexivity | exact Hstatus].
Defined.

Lemma malformed_page_is_fatal_witness :
  main Scenario.E_blank ["ast"; "io"] 3 []
  = (Raise (Exception "h1 should be an instance of bs4.Tag"),
     [HttpGet Demo.ast_link
        (Ok (Demo.answer_page Demo.ast_link 200 "OK" "blank"))]).
Proof.
  assert (Hstatus : ~ error_status
                      (Demo.answer_page Demo.ast_link 200 "OK" "blank"))
    by (unfold error_status; simpl; lia).
  apply (malformed_page_is_fatal Scenario.E_blank [] ["io"] "ast" 3 [] []
           (Demo.answer_page Demo.ast_link 200 "OK" "blank") []);
    solve [reflexivity | exact Hstatus].
Defined.

Lemma posts_go_to_the_configured_url_witness :
  let t := snd (main Demo.E ["ast"] 3 []) in
  exists pre' config,
    firstn 2 t = (pre' ++ [ReadConfig (Ok config)])%list
    /\ py_getitem config "anki-connect-url" = Ok Demo.anki_url.
Proof.
  cbv zeta.
  apply (proj2 (posts_go_to_the_configured_url Demo.E ["ast"] 3)
           (firstn 2 (snd (main Demo.E ["ast"] 3 [])))
           Demo.anki_url
           (get_anki_connect_request "addNote"
              [("note", synopsis_note (PyStr "Python") (PyStr "Basic")
                          (PyStr "module") Demo.tags
                          "Abstract Syntax Trees" "ast" Demo.ast_link)])
           (Ok (Demo.first_reply 200))
           (skipn 3 (snd (main Demo.E ["ast"] 3 [])))).
  vm_compute. reflexivity.
Defined.

Lemma accumulator_only_grows_witness :
  exists new,
    [PyInt 1001; PyInt 1002] = ([] ++ new)%list
    /\ (List.length new <= List.length Demo.modules)%nat
    /\ ~ In PyNone new.
Proof.
  apply (accumulator_only_grows Demo.E Demo.modules 3 []
           [PyInt 1001; PyInt 1002] []
           (snd (main_loop Demo.E Demo.modules 3 [] []))).
  vm_compute. reflexivity.
Defined.

Lemma batch_of_error_statuses_witness :
  exists evs,
    main_loop Demo.E_no_config Demo.modules 3 [] []
    = (Ok [], ([] ++ evs)%list)
    /\ count is_post evs = 0%nat
    /\ count is_config_read evs = 0%nat
    /\ count is_print evs = 3%nat
    /\ fetched evs = map (fun module => docs_url module 3) Demo.modules.
Proof.
  apply (batch_of_error_statuses Demo.E_no_config 3).
  intros t target. exists (Demo.answer_page target 404 "Not Found" "").
  split; [reflexivity | unfold error_status; simpl; lia].
Defined.

Lemma browse_failure_keeps_notes_witness :
  let t1 := snd (main_loop Scenario.E_config_lost Demo.modules 3 [] []) in
  fst (main Scenario.E_config_lost Demo.modules 3 [])
  = Raise Demo.no_config
  /\ created_ids Scenario.E_config_lost
       (t1 ++ [ReadConfig (load_config Scenario.E_config_lost t1)])%list
     = [PyInt 1001; PyInt 1002].
Proof.
  cbv zeta.
  destruct (browse_failure_keeps_notes Scenario.E_config_lost Demo.modules
              3 [PyInt 1001; PyInt 1002]
              (snd (main_loop Scenario.E_config_lost Demo.modules 3 [] []))
              Demo.no_config) as (Hmain & Hcreated & _).
  - vm_compute. reflexivity.
  - vm_compute. reflexivity.
  - rewrite Hmain. split; [reflexivity | exact Hcreated].
Defined.

Lemma browse_query_reads_back_witness :
  exists ids_text answer diagnostic,
    snd (gui_browse_notes Demo.E (map PyInt [1001; 1002]%Z) [])
    = ([] ++ [ReadConfig (Ok Demo.config);
              HttpPost Demo.anki_url
                (get_anki_connect_request "guiBrowse"
                   [("query", PyStr ("nid:" ++ ids_text))])
                answer]
          ++ diagnostic)%list
    /\ map int_of_str (split_on ","%char ids_text)
       = map Some [1001; 1002]%Z.
Proof.
  apply (browse_query_reads_back Demo.E [1001; 1002]%Z [] Demo.config
           Demo.anki_url); [discriminate | reflexivity | reflexivity].
Defined.
